(** * Flower-shop microservices: the analytics and notification services

    A shallow embedding of [analytics-service/index.js] and
    [notification-service/index.js].  Each service keeps one module-level
    array of records ([salesData], [notifications]) and serves it through
    Express route handlers.  A handler is modelled as a function of the
    current array (and, for a POST, of the request body and of the clock
    reading) that returns the new array and the response.

    JavaScript values are modelled as they are at run time: a field of a
    record holds whatever the JSON body supplied, a JavaScript number is an
    IEEE-754 binary64 value (Rocq's primitive [float]), and [+] and [/] are
    the dynamically typed operators of the language. *)

From Stdlib Require Import ZArith PArith List String Ascii Floats Uint63 Lia.
From stdpp Require Import base option list gmap strings fin_maps.

Set Warnings "-inexact-float".

Local Open Scope string_scope.
Local Open Scope Z_scope.

(** ** JavaScript values and operators *)

Module JS.

(** The primitive values a JSON request body can put in a field, and
    [undefined] for a field the body does not have.  Arrays and objects
    nested inside a field are outside the model. *)
Inductive value : Type :=
| VUndefined
| VNull
| VBool (b : bool)
| VNumber (x : float)
| VString (s : string).

(** The two conversions between numbers and strings belong to the JavaScript
    engine, not to the repository: [Number::toString] and [StringToNumber] of
    ECMA-262.  They are taken as parameters. *)
Class JsRuntime : Type := {
  NumberToString : float -> string;
  StringToNumber : string -> float
}.

(** An array's [length] as a number.  The conversion is exact for every
    length an array can have (below 2^32). *)
Definition number_of_Z (z : Z) : float := PrimFloat.of_uint63 (Uint63.of_Z z).

Definition number_of_nat (n : nat) : float := number_of_Z (Z.of_nat n).

Definition is_finite (x : float) : bool :=
  negb (PrimFloat.is_nan x || PrimFloat.is_infinity x).

(** [String.prototype.split] with a separator of one character: the piece
    before the first separator, and the pieces after it. *)
Fixpoint split_pieces (sep : ascii) (s : string) : string * list string :=
  match s with
  | EmptyString => (EmptyString, [])
  | String c s' =>
      let pieces := split_pieces sep s' in
      if Ascii.eqb c sep then (EmptyString, pieces.1 :: pieces.2)
      else (String c pieces.1, pieces.2)
  end.

Definition split (sep : ascii) (s : string) : list string :=
  let pieces := split_pieces sep s in pieces.1 :: pieces.2.

(** [array[0]] for an array of strings; [split] never returns an empty
    array. *)
Definition first (pieces : list string) : string :=
  match pieces with
  | piece :: _ => piece
  | [] => EmptyString
  end.

(** The names every object literal inherits from [Object.prototype]; each one
    is bound to a function, except [__proto__], an accessor that answers
    [Object.prototype] itself. *)
Definition Object_prototype_functions : list string :=
  [ "constructor"; "__defineGetter__"; "__defineSetter__"; "hasOwnProperty";
    "__lookupGetter__"; "__lookupSetter__"; "isPrototypeOf";
    "propertyIsEnumerable"; "toString"; "valueOf"; "toLocaleString" ].

Definition is_Object_prototype_function (key : string) : bool :=
  existsb (String.eqb key) Object_prototype_functions.

Section Operators.
Context {rt : JsRuntime}.

Definition ToNumber (v : value) : float :=
  match v with
  | VUndefined => PrimFloat.nan
  | VNull => 0%float
  | VBool true => 1%float
  | VBool false => 0%float
  | VNumber x => x
  | VString s => StringToNumber s
  end.

Definition ToString (v : value) : string :=
  match v with
  | VUndefined => "undefined"
  | VNull => "null"
  | VBool true => "true"
  | VBool false => "false"
  | VNumber x => NumberToString x
  | VString s => s
  end.

(** A property key: [acc[sale.product]] converts the product to a string. *)
Definition ToPropertyKey (v : value) : string := ToString v.

(** [a + b]: concatenation as soon as one operand is a string, the sum of the
    operands as numbers otherwise. *)
Definition js_add (a b : value) : value :=
  match a, b with
  | VString s, _ => VString (String.append s (ToString b))
  | _, VString s => VString (String.append (ToString a) s)
  | _, _ => VNumber (ToNumber a + ToNumber b)%float
  end.

(** [a / b]. *)
Definition js_div (a b : value) : value :=
  VNumber (ToNumber a / ToNumber b)%float.

End Operators.

(** [!v] is [negb (ToBoolean v)]. *)
Definition ToBoolean (v : value) : bool :=
  match v with
  | VUndefined | VNull => false
  | VBool b => b
  | VNumber x => negb (PrimFloat.is_zero x || PrimFloat.is_nan x)
  | VString EmptyString => false
  | VString (String _ _) => true
  end.

(** A runtime for closed examples.  The examples run on records whose
    quantities and amounts are numbers and whose products are strings; no
    conversion between a number and a string is evaluated on them, and their
    results are the same in every runtime. *)
Definition sample_runtime : JsRuntime :=
  {| NumberToString := fun _ => "NaN"; StringToNumber := fun _ => PrimFloat.nan |}.

End JS.

Import JS.

(** An HTTP response: [res.status(code).json(payload)]; [res.json(payload)]
    alone answers 200. *)
Record Response (A : Type) : Type := {
  status : nat;
  payload : A
}.
Arguments status {A} _.
Arguments payload {A} _.

(** ** analytics-service/index.js *)

Module Analytics.

(** An element of [salesData].  [id] is always assigned by the service from
    an array length, so it is an integer; the other fields come from the
    request body as they are. *)
Record Sale : Type := {
  id : Z;
  product : value;
  quantity : value;
  amount : value;
  date : string
}.

(** [let salesData = [...]]: the array the process starts with. *)
Definition initial_salesData : list Sale :=
  [ {| id := 1; product := VString "Розы"; quantity := VNumber 15;
       amount := VNumber 7500; date := "2024-01-15" |};
    {| id := 2; product := VString "Тюльпаны"; quantity := VNumber 25;
       amount := VNumber 5000; date := "2024-01-16" |} ].

(** The object sent by [GET /analytics/sales]. *)
Record SalesStats : Type := {
  totalSales : value;
  totalQuantity : value;
  averageSale : value;
  salesCount : nat;
  salesData : list Sale
}.

(** [const { product, quantity, amount } = req.body]: a field the body lacks
    is [undefined]. *)
Record SaleBody : Type := {
  body_product : value;
  body_quantity : value;
  body_amount : value
}.

(** [new Date().toISOString().split('T')[0]], from the value [now] of
    [new Date().toISOString()]. *)
Definition date_of (now : string) : string := first (split "T" now).

(** [POST /analytics/sales] (lines 146-157): the array after [push], and the
    response. *)
Definition post_analytics_sales (now : string) (body : SaleBody)
    (salesData : list Sale) : list Sale * Response Sale :=
  let newSale :=
    {| id := Z.of_nat (length salesData) + 1;
       product := body_product body;
       quantity := body_quantity body;
       amount := body_amount body;
       date := date_of now |} in
  ((salesData ++ [newSale])%list, {| status := 201; payload := newSale |}).

(** The per-product entry of the report. *)
Module Product.
Record Stats : Type := {
  totalQuantity : value;
  totalAmount : value
}.
End Product.

(** What the handler of [GET /analytics/products] can leave on
    [Object.prototype]: the properties [totalQuantity] and [totalAmount],
    [undefined] as long as they were never written. *)
Record ObjectPrototype : Type := {
  proto_totalQuantity : value;
  proto_totalAmount : value
}.

Definition pristine : ObjectPrototype :=
  {| proto_totalQuantity := VUndefined; proto_totalAmount := VUndefined |}.

(** What [acc[key]] evaluates to, for the accumulator [acc] of the report (an
    object literal, so its prototype is [Object.prototype]). *)
Inductive property : Type :=
| OwnStats (stats : Product.Stats)
| InheritedFunction
| ThePrototype
| Inherited (v : value).

(** The accumulator's own properties, and [Object.prototype]. *)
Definition heap : Type := gmap string Product.Stats * ObjectPrototype.

Definition get (h : heap) (key : string) : property :=
  match h.1 !! key with
  | Some stats => OwnStats stats
  | None =>
      if String.eqb key "__proto__" then ThePrototype
      else if is_Object_prototype_function key then InheritedFunction
      else if String.eqb key "totalQuantity" then Inherited (proto_totalQuantity h.2)
      else if String.eqb key "totalAmount" then Inherited (proto_totalAmount h.2)
      else Inherited VUndefined
  end.

(** [!acc[key]] *)
Definition is_falsy (p : property) : bool :=
  match p with
  | Inherited v => negb (ToBoolean v)
  | OwnStats _ | InheritedFunction | ThePrototype => false
  end.

Section Handlers.
Context {rt : JsRuntime}.

(** [GET /analytics/sales] (lines 102-113): the two [reduce] calls and the
    object built from them. *)
Definition computeSalesStats (salesData : list Sale) : SalesStats :=
  let totalSales :=
    fold_left (fun sum sale => js_add sum (amount sale)) salesData (VNumber 0) in
  let totalQuantity :=
    fold_left (fun sum sale => js_add sum (quantity sale)) salesData (VNumber 0) in
  {| totalSales := totalSales;
     totalQuantity := totalQuantity;
     averageSale := js_div totalSales (VNumber (number_of_nat (length salesData)));
     salesCount := length salesData;
     salesData := salesData |}.

Definition get_analytics_sales (salesData : list Sale) : Response SalesStats :=
  {| status := 200; payload := computeSalesStats salesData |}.

(** [acc[key].totalQuantity += quantity].  On an own entry the entry is
    updated.  On [Object.prototype] (key [__proto__]) the property is created
    or updated there.  On an inherited function the property lands on that
    function, out of reach of [acc]; on an inherited primitive the assignment
    is dropped (the module is not in strict mode). *)
Definition add_totalQuantity (key : string) (quantity : value) (h : heap) : heap :=
  match get h key with
  | OwnStats stats =>
      (<[key := {| Product.totalQuantity := js_add (Product.totalQuantity stats) quantity;
                   Product.totalAmount := Product.totalAmount stats |}]> h.1, h.2)
  | ThePrototype =>
      (h.1, {| proto_totalQuantity := js_add (proto_totalQuantity h.2) quantity;
               proto_totalAmount := proto_totalAmount h.2 |})
  | InheritedFunction | Inherited _ => h
  end.

(** [acc[key].totalAmount += amount] *)
Definition add_totalAmount (key : string) (amount : value) (h : heap) : heap :=
  match get h key with
  | OwnStats stats =>
      (<[key := {| Product.totalQuantity := Product.totalQuantity stats;
                   Product.totalAmount := js_add (Product.totalAmount stats) amount |}]> h.1, h.2)
  | ThePrototype =>
      (h.1, {| proto_totalQuantity := proto_totalQuantity h.2;
               proto_totalAmount := js_add (proto_totalAmount h.2) amount |})
  | InheritedFunction | Inherited _ => h
  end.

(** The callback of [salesData.reduce] in [GET /analytics/products]
    (lines 181-188). *)
Definition productStats_step (h : heap) (sale : Sale) : heap :=
  let key := ToPropertyKey (product sale) in
  let h :=
    if is_falsy (get h key)
    then (<[key := {| Product.totalQuantity := VNumber 0;
                      Product.totalAmount := VNumber 0 |}]> h.1, h.2)
    else h in
  let h := add_totalQuantity key (quantity sale) h in
  add_totalAmount key (amount sale) h.

(** [GET /analytics/products] (lines 180-191): [productStats], and
    [Object.prototype] as the handler leaves it. *)
Definition computeProductReport (proto : ObjectPrototype) (salesData : list Sale)
    : heap :=
  fold_left productStats_step salesData (∅, proto).

Definition get_analytics_products (proto : ObjectPrototype) (salesData : list Sale)
    : ObjectPrototype * Response (gmap string Product.Stats) :=
  let h := computeProductReport proto salesData in
  (h.2, {| status := 200; payload := h.1 |}).

End Handlers.

(** The store after a sequence of [POST /analytics/sales] requests, each given
    as its clock reading and body. *)
Definition post_all (requests : list (string * SaleBody)) (salesData : list Sale)
    : list Sale :=
  fold_left (fun store request => (post_analytics_sales request.1 request.2 store).1)
    requests salesData.

(** The states of [salesData] over the life of the process: [push] in the POST
    handler is the only write. *)
Inductive reachable : list Sale -> Prop :=
| reachable_start : reachable initial_salesData
| reachable_post now body store :
    reachable store -> reachable (post_analytics_sales now body store).1.

End Analytics.

(** ** notification-service/index.js *)

Module Notification.

Record Notification : Type := {
  id : Z;
  message : value;
  type : value;
  timestamp : string
}.

(** [let notifications = [...]] *)
Definition initial_notifications : list Notification :=
  [ {| id := 1; message := VString "Новая поставка роз"; type := VString "supply";
       timestamp := "2024-01-15T10:30:00.000Z" |} ].

(** [const { message, type } = req.body] *)
Record NotificationBody : Type := {
  body_message : value;
  body_type : value
}.

(** [GET /notifications] (lines 86-88) *)
Definition get_notifications (notifications : list Notification)
    : Response (list Notification) :=
  {| status := 200; payload := notifications |}.

(** [POST /notifications] (lines 119-129); [now] is the value of
    [new Date().toISOString()]. *)
Definition post_notifications (now : string) (body : NotificationBody)
    (notifications : list Notification) : list Notification * Response Notification :=
  let newNotification :=
    {| id := Z.of_nat (length notifications) + 1;
       message := body_message body;
       type := body_type body;
       timestamp := now |} in
  ((notifications ++ [newNotification])%list, {| status := 201; payload := newNotification |}).

Inductive reachable : list Notification -> Prop :=
| reachable_start : reachable initial_notifications
| reachable_post now body store :
    reachable store -> reachable (post_notifications now body store).1.

End Notification.

Import Analytics.

(** ** The specification's vocabulary *)

(** "The sum of [x] over all records": the finite sum of the terms
    [term 0], ..., [term (n - 1)], by recursion on the number of terms. *)
Fixpoint partial_sum (term : nat -> float) (n : nat) : float :=
  match n with
  | O => 0%float
  | S n' => (partial_sum term n' + term n')%float
  end.

Definition sum_of (xs : list float) : float :=
  partial_sum (fun i => nth i xs 0%float) (length xs).

(** The same sum over integers. *)
Definition sum_Z (zs : list Z) : Z := foldr Z.add 0 zs.

Definition is_number (v : value) : bool :=
  match v with
  | VNumber _ => true
  | _ => false
  end.

(** A sale as the service documents it (schema [Sale]): a quantity and an
    amount that are numbers. *)
Definition numeric (sale : Sale) : bool :=
  is_number (quantity sale) && is_number (amount sale).

(** The products of the records that are strings are the keys the clients
    expect in the report. *)
Definition has_product (key : string) (sale : Sale) : bool :=
  match product sale with
  | VString s => String.eqb s key
  | _ => false
  end.

(** A product name that an object literal does not inherit. *)
Definition ordinary (key : string) : bool :=
  negb (String.eqb key "__proto__" || is_Object_prototype_function key).

Definition ordinary_sale (sale : Sale) : bool :=
  match product sale with
  | VString s => ordinary s
  | _ => false
  end.

(** [Object.prototype] carries nothing truthy under [totalQuantity] or
    [totalAmount]; so it is in a process that never reported on a product
    named [__proto__]. *)
Definition unpolluted (proto : ObjectPrototype) : bool :=
  negb (ToBoolean (proto_totalQuantity proto))
  && negb (ToBoolean (proto_totalAmount proto)).

(** A sale whose quantity and amount are the non-negative integers [q] and
    [a], and whose product is the ordinary name [key]. *)
Definition integer_sale (sale : Sale) (entry : string * (Z * Z)) : Prop :=
  product sale = VString entry.1 /\ ordinary entry.1 = true /\
  quantity sale = VNumber (number_of_Z entry.2.1) /\ 0 <= entry.2.1 /\
  amount sale = VNumber (number_of_Z entry.2.2) /\ 0 <= entry.2.2.

Definition quantities (entries : list (string * (Z * Z))) : list Z :=
  map (fun entry => entry.2.1) entries.

Definition amounts (entries : list (string * (Z * Z))) : list Z :=
  map (fun entry => entry.2.2) entries.

(** The report over integers: per product, the exact sums. *)
Definition integer_step (m : gmap string (Z * Z)) (entry : string * (Z * Z))
    : gmap string (Z * Z) :=
  match m !! entry.1 with
  | Some total => <[entry.1 := (total.1 + entry.2.1, total.2 + entry.2.2)]> m
  | None => <[entry.1 := entry.2]> m
  end.

Definition integer_report (entries : list (string * (Z * Z))) : gmap string (Z * Z) :=
  fold_left integer_step entries ∅.

(** The sum of one component over the groups of an integer report. *)
Definition map_total (component : Z * Z -> Z) (m : gmap string (Z * Z)) : Z :=
  sum_Z (map (fun group => component group.2) (map_to_list m)).

(** The bound that makes every group addition exact: what a group holds plus
    what is still to come stays below 2^53. *)
Definition within_bounds (m : gmap string (Z * Z)) (entries : list (string * (Z * Z)))
    : Prop :=
  forall key total, m !! key = Some total ->
    0 <= total.1 /\ total.1 + sum_Z (quantities entries) < 2 ^ 53 /\
    0 <= total.2 /\ total.2 + sum_Z (amounts entries) < 2 ^ 53.

Definition stats_of_integers (total : Z * Z) : Product.Stats :=
  {| Product.totalQuantity := VNumber (number_of_Z total.1);
     Product.totalAmount := VNumber (number_of_Z total.2) |}.

(** A group as the report builds it: from zero, each sale of the product
    added in turn. *)
Definition empty_stats : Product.Stats :=
  {| Product.totalQuantity := VNumber 0; Product.totalAmount := VNumber 0 |}.

Definition add_sale `{rt : JsRuntime} (stats : Product.Stats) (sale : Sale)
    : Product.Stats :=
  {| Product.totalQuantity := js_add (Product.totalQuantity stats) (quantity sale);
     Product.totalAmount := js_add (Product.totalAmount stats) (amount sale) |}.

(** The group of [key] over [records]: none when no record has that product. *)
Definition group_of `{rt : JsRuntime} (key : string) (records : list Sale)
    : option Product.Stats :=
  match List.filter (has_product key) records with
  | [] => None
  | sale :: sales => Some (fold_left add_sale (sale :: sales) empty_stats)
  end.

(** The sum of a field over the groups of a report, taken in the order
    [groups] lists them. *)
Definition sum_over_groups `{rt : JsRuntime} (field : Product.Stats -> value)
    (groups : list (string * Product.Stats)) : value :=
  fold_left (fun sum group => js_add sum (field group.2)) groups (VNumber 0).

(** The request of the specification's example. *)
Definition roses_body : SaleBody :=
  {| body_product := VString "Розы"; body_quantity := VNumber 15;
     body_amount := VNumber 7500 |}.

(** A request body that lacks a field the schema requires. *)
Definition missing_sale_field (body : SaleBody) : Prop :=
  body_product body = VUndefined \/ body_quantity body = VUndefined \/
  body_amount body = VUndefined.

Definition missing_notification_field (body : Notification.NotificationBody) : Prop :=
  Notification.body_message body = VUndefined \/
  Notification.body_type body = VUndefined.

(** The ids of a store of [n] records that only ever grew by [push]. *)
Definition ids_upto (n : nat) : list Z := seqZ 1 (Z.of_nat n).

(** Two sales with prices in cents, posted to the started service. *)
Definition priced_requests : list (string * SaleBody) :=
  [ ("2024-02-01T08:00:00.000Z",
     {| body_product := VString "Розы"; body_quantity := VNumber 1;
        body_amount := VNumber 19.99 |});
    ("2024-02-01T09:00:00.000Z",
     {| body_product := VString "Тюльпаны"; body_quantity := VNumber 1;
        body_amount := VNumber 14.95 |}) ].

(** A sale of a product that is named like a method of every object. *)
Definition constructor_body : SaleBody :=
  {| body_product := VString "constructor"; body_quantity := VNumber 1;
     body_amount := VNumber 100 |}.

(** ** The other routes, and sequences of requests *)

(** The object sent by [GET /health] (analytics lines 203-205, notifications
    lines 150-152). *)
Module Health.
Record Body : Type := {
  status : string;
  service : string
}.
End Health.

Definition get_health_analytics : Response Health.Body :=
  {| status := 200;
     payload := {| Health.status := "OK"; Health.service := "Analytics Service" |} |}.

Definition get_health_notification : Response Health.Body :=
  {| status := 200;
     payload := {| Health.status := "OK"; Health.service := "Notification Service" |} |}.

(** The store after a sequence of [POST /notifications] requests, each given
    as its clock reading and body. *)
Definition post_all_notifications
    (requests : list (string * Notification.NotificationBody))
    (notifications : list Notification.Notification)
    : list Notification.Notification :=
  fold_left
    (fun store request => (Notification.post_notifications request.1 request.2 store).1)
    requests notifications.

(** The record that a request leaves in a store that held [count] records. *)
Definition appended_sale (count : nat) (request : string * SaleBody) : Sale :=
  {| id := Z.of_nat count + 1;
     product := body_product request.2;
     quantity := body_quantity request.2;
     amount := body_amount request.2;
     date := date_of request.1 |}.

Definition appended_notification (count : nat)
    (request : string * Notification.NotificationBody) : Notification.Notification :=
  {| Notification.id := Z.of_nat count + 1;
     Notification.message := Notification.body_message request.2;
     Notification.type := Notification.body_type request.2;
     Notification.timestamp := request.1 |}.

(** An amount that is a number, or that the request left out. *)
Definition is_number_or_undefined (v : value) : bool :=
  match v with
  | VNumber _ | VUndefined => true
  | _ => false
  end.

Definition is_string (v : value) : bool :=
  match v with
  | VString _ => true
  | _ => false
  end.

(** The key under which the report files a sale: its product as a property
    key, whatever the product is. *)
Definition key_of `{rt : JsRuntime} (sale : Sale) : string :=
  ToPropertyKey (product sale).

Definition has_key `{rt : JsRuntime} (key : string) (sale : Sale) : bool :=
  String.eqb (key_of sale) key.

Definition ordinary_key `{rt : JsRuntime} (sale : Sale) : bool :=
  ordinary (key_of sale).

(** The group of the sales filed under [key]. *)
Definition group_by_key `{rt : JsRuntime} (key : string) (records : list Sale)
    : option Product.Stats :=
  match List.filter (has_key key) records with
  | [] => None
  | sale :: sales => Some (fold_left add_sale (sale :: sales) empty_stats)
  end.

(** ** Binary64 arithmetic on integers *)

(** [shl n p] is [p * 2^n]. *)
Definition shl (n : nat) (p : positive) : positive := Nat.iter n xO p.

(** The binary64 encoding of a non-negative integer below 2^53: the mantissa
    is shifted to 53 bits. *)
Definition SF_of_Z (z : Z) : spec_float :=
  match z with
  | Z.pos p =>
      S754_finite false (shl (Z.to_nat (53 - Z.pos (digits2_pos p))) p)
        (Z.pos (digits2_pos p) - 53)
  | _ => S754_zero false
  end.

(** [H] equates two different numbers: [PrimFloat.eqb] tells them apart. *)
Ltac numbers_differ H :=
  vm_compute in H;
  match type of H with
  | VNumber ?x = VNumber ?y =>
      apply (f_equal (fun v => match v with
                               | VNumber z => PrimFloat.eqb z y
                               | _ => false
                               end)) in H;
      vm_compute in H; discriminate H
  end.

(** * Proofs *)

(** ** The model on the fixtures *)

Section Examples.
Context {rt : JsRuntime}.

Example split_iso_instant :
  split "T" "2024-01-15T10:30:00.000Z" = ["2024-01-15"; "10:30:00.000Z"].
Proof. reflexivity. Qed.

Example split_without_separator : split "T" "2024-01-15" = ["2024-01-15"].
Proof. reflexivity. Qed.

Example statistics_of_the_fixtures :
  computeSalesStats initial_salesData
  = {| totalSales := VNumber 12500; totalQuantity := VNumber 40;
       averageSale := VNumber 6250; salesCount := 2;
       salesData := initial_salesData |}.
Proof. reflexivity. Qed.

Example report_of_the_fixtures :
  let report := (computeProductReport pristine initial_salesData).1 in
  report !! "Розы"
    = Some {| Product.totalQuantity := VNumber 15; Product.totalAmount := VNumber 7500 |} /\
  report !! "Тюльпаны"
    = Some {| Product.totalQuantity := VNumber 25; Product.totalAmount := VNumber 5000 |} /\
  size report = 2%nat.
Proof. repeat split; vm_compute; reflexivity. Qed.

(** [+] is dynamically typed: an amount posted as a string is concatenated,
    a missing amount turns the total into NaN. *)
Example total_with_a_string_amount :
  js_add (VNumber 7500) (VString "5000")
  = VString (String.append (NumberToString 7500) "5000").
Proof. reflexivity. Qed.

Example total_with_a_missing_amount :
  js_add (VNumber 7500) VUndefined = VNumber PrimFloat.nan.
Proof. reflexivity. Qed.

End Examples.

(** ** Additions of integers below 2^53 do not round *)

Section SafeIntegers.

Lemma shl_S n p : shl (S n) p = xO (shl n p).
Proof. reflexivity. Qed.

Lemma shl_add n m p : shl (n + m) p = shl n (shl m p).
Proof. unfold shl. apply Nat.iter_add. Qed.

Lemma Pos_iter_xO_shl p d : Pos.iter xO p d = shl (Pos.to_nat d) p.
Proof. unfold shl, Nat.iter. apply Pos2Nat.inj_iter. Qed.

Lemma iter_pos_nat {A} (f : A -> A) d x :
  SpecFloat.iter_pos f d x = Nat.iter (Pos.to_nat d) f x.
Proof.
  revert x. induction d as [d IH|d IH|]; intros x; cbn [SpecFloat.iter_pos].
  - rewrite !IH, Pos2Nat.inj_xI.
    replace (S (2 * Pos.to_nat d))%nat
      with (Pos.to_nat d + (Pos.to_nat d + 1))%nat by lia.
    rewrite !Nat.iter_add. reflexivity.
  - rewrite !IH, Pos2Nat.inj_xO.
    replace (2 * Pos.to_nat d)%nat with (Pos.to_nat d + Pos.to_nat d)%nat by lia.
    rewrite Nat.iter_add. reflexivity.
  - reflexivity.
Qed.

Lemma digits2_pos_shl n p :
  Z.pos (digits2_pos (shl n p)) = Z.pos (digits2_pos p) + Z.of_nat n.
Proof.
  induction n as [|n IH]; [simpl; lia|].
  rewrite shl_S. simpl digits2_pos. lia.
Qed.

(** Shifting right the bits that a shift left added loses nothing. *)
Lemma shr_1_shl j n p :
  Nat.iter n shr_1
    {| shr_m := Z.pos (shl (n + j) p); shr_r := false; shr_s := false |}
  = {| shr_m := Z.pos (shl j p); shr_r := false; shr_s := false |}.
Proof.
  revert j. induction n as [|n IH]; intros j; [reflexivity|].
  rewrite Nat.iter_succ. replace (S n + j)%nat with (n + S j)%nat by lia.
  rewrite IH. reflexivity.
Qed.

Lemma shl_pos_add n p q : (shl n p + shl n q)%positive = shl n (p + q).
Proof.
  induction n as [|n IH]; [reflexivity|].
  rewrite !shl_S.
  change ((shl n p)~0 + (shl n q)~0)%positive with ((shl n p + shl n q)~0)%positive.
  now rewrite IH.
Qed.

Lemma digits2_pos_bound p : Z.pos p < 2 ^ 53 -> Z.pos (digits2_pos p) <= 53.
Proof.
  intros Hp.
  assert (Hd : forall q, 2 ^ Z.pos (digits2_pos q) <= 2 * Z.pos q).
  { induction q as [q IH|q IH|]; simpl digits2_pos;
      rewrite ?Pos2Z.inj_succ, ?Z.pow_succ_r by lia; lia. }
  specialize (Hd p).
  destruct (Z_le_gt_dec (Z.pos (digits2_pos p)) 53) as [|Hgt]; [assumption|exfalso].
  assert (H : 2 ^ 54 <= 2 ^ Z.pos (digits2_pos p)) by (apply Z.pow_le_mono_r; lia).
  change (2 ^ 54) with (2 * 2 ^ 53) in H. lia.
Qed.

Lemma fexp_binary64 e : SpecFloat.fexp prec emax e = Z.max (e - 53) (-1074).
Proof. reflexivity. Qed.

(** A mantissa that is a canonical one shifted left by [j] rounds to the
    canonical one, exactly. *)
Lemma binary_round_aux_exact s q j e :
  SpecFloat.bounded prec emax q (e + Z.of_nat j) = true ->
  binary_round_aux prec emax s (Z.pos (shl j q)) e loc_Exact
  = S754_finite s q (e + Z.of_nat j).
Proof.
  unfold SpecFloat.bounded, canonical_mantissa. intros Hb.
  apply andb_prop in Hb as [Hc Hle]. apply Z.eqb_eq in Hc.
  unfold binary_round_aux, shr_fexp. cbn [Zdigits2 shr_record_of_loc].
  rewrite digits2_pos_shl.
  replace (Z.pos (digits2_pos q) + Z.of_nat j + e)
    with (Z.pos (digits2_pos q) + (e + Z.of_nat j)) by lia.
  rewrite Hc. replace (e + Z.of_nat j - e) with (Z.of_nat j) by lia.
  assert (Hshr :
    shr {| shr_m := Z.pos (shl j q); shr_r := false; shr_s := false |} e (Z.of_nat j)
    = ({| shr_m := Z.pos q; shr_r := false; shr_s := false |}, e + Z.of_nat j)).
  { destruct j as [|j]; [simpl; f_equal; lia|].
    unfold shr. change (Z.of_nat (S j)) with (Z.pos (Pos.of_succ_nat j)).
    cbv iota beta. rewrite iter_pos_nat, SuccNat2Pos.id_succ.
    pose proof (shr_1_shl 0 (S j) q) as H. rewrite Nat.add_0_r in H.
    rewrite H. reflexivity. }
  rewrite Hshr. cbn [shr_m loc_of_shr_record round_nearest_even Zdigits2].
  rewrite Hc. rewrite Z.sub_diag. cbn [shr shr_m].
  rewrite Hle. reflexivity.
Qed.

(** Rounding [p * 2^k * 2^-k], for [p] of at most 53 bits, gives the encoding
    of [p]. *)
Lemma binary_round_exact s p k :
  Z.pos (digits2_pos p) <= 53 ->
  binary_round prec emax s (shl k p) (- Z.of_nat k)
  = S754_finite s (shl (Z.to_nat (53 - Z.pos (digits2_pos p))) p)
      (Z.pos (digits2_pos p) - 53).
Proof.
  intros Hd. unfold binary_round.
  rewrite digits2_pos_shl.
  set (d := Z.pos (digits2_pos p)) in *.
  replace (SpecFloat.fexp prec emax (d + Z.of_nat k + - Z.of_nat k)) with (d - 53)
    by (rewrite fexp_binary64; lia).
  assert (Hb : SpecFloat.bounded prec emax (shl (Z.to_nat (53 - d)) p) (d - 53) = true).
  { unfold SpecFloat.bounded, canonical_mantissa. apply andb_true_intro. split.
    - apply Z.eqb_eq. rewrite digits2_pos_shl, fexp_binary64. fold d. lia.
    - apply Z.leb_le. change (emax - prec) with 971. lia. }
  unfold shl_align.
  destruct (d - 53 - - Z.of_nat k) as [|dd|dd] eqn:E.
  - replace k with (Z.to_nat (53 - d)) at 1 by lia.
    pose proof (binary_round_aux_exact s (shl (Z.to_nat (53 - d)) p) 0 (- Z.of_nat k)) as H.
    replace (- Z.of_nat k + Z.of_nat 0) with (d - 53) in H by lia.
    apply H, Hb.
  - pose proof (binary_round_aux_exact s (shl (Z.to_nat (53 - d)) p)
                  (Pos.to_nat dd) (- Z.of_nat k)) as H.
    replace (- Z.of_nat k + Z.of_nat (Pos.to_nat dd)) with (d - 53) in H by lia.
    rewrite <- shl_add in H.
    replace (Pos.to_nat dd + Z.to_nat (53 - d))%nat with k in H by lia.
    apply H, Hb.
  - rewrite Pos_iter_xO_shl, <- shl_add.
    replace (Pos.to_nat dd + k)%nat with (Z.to_nat (53 - d)) by lia.
    pose proof (binary_round_aux_exact s (shl (Z.to_nat (53 - d)) p) 0 (d - 53)) as H.
    rewrite Z.add_0_r in H. apply H, Hb.
Qed.

Lemma Prim2SF_number_of_Z z :
  0 <= z < 2 ^ 53 -> Prim2SF (number_of_Z z) = SF_of_Z z.
Proof.
  intros Hz. unfold number_of_Z. rewrite of_uint63_spec, Uint63.of_Z_spec.
  rewrite Z.mod_small by (change wB with (2 ^ 63); split; [lia|];
    apply Z.lt_trans with (2 ^ 53); [lia | reflexivity]).
  destruct z as [|p|p]; [reflexivity| |lia].
  cbn [binary_normalize SF_of_Z].
  apply (binary_round_exact false p 0), digits2_pos_bound. lia.
Qed.

Lemma shl_align_fst m e e' :
  e' <= e -> fst (shl_align m e e') = shl (Z.to_nat (e - e')) m.
Proof.
  intros He. unfold shl_align.
  destruct (e' - e) as [|d|d] eqn:E; cbn [fst].
  - replace (e - e') with 0 by lia. reflexivity.
  - lia.
  - rewrite Pos_iter_xO_shl. f_equal. lia.
Qed.

Lemma SFadd_SF_of_Z a b :
  0 <= a -> 0 <= b -> a + b < 2 ^ 53 ->
  SF64add (SF_of_Z a) (SF_of_Z b) = SF_of_Z (a + b).
Proof.
  intros Ha Hb Hab.
  destruct a as [|pa|pa]; [| |lia].
  { destruct b as [|pb|pb]; [reflexivity|reflexivity|lia]. }
  destruct b as [|pb|pb]; [reflexivity| |lia].
  pose proof (digits2_pos_bound pa ltac:(lia)) as Hda.
  pose proof (digits2_pos_bound pb ltac:(lia)) as Hdb.
  pose proof (digits2_pos_bound (pa + pb) ltac:(lia)) as Hdab.
  unfold SF64add, SFadd, SF_of_Z. cbn [cond_Zopp Z.add].
  set (da := Z.pos (digits2_pos pa)) in *. set (db := Z.pos (digits2_pos pb)) in *.
  rewrite !shl_align_fst by lia.
  rewrite <- !shl_add.
  set (K := (Z.to_nat (da - 53 - Z.min (da - 53) (db - 53)) + Z.to_nat (53 - da))%nat).
  replace (Z.to_nat (db - 53 - Z.min (da - 53) (db - 53)) + Z.to_nat (53 - db))%nat
    with K by lia.
  rewrite <- !Pos2Z.inj_add, shl_pos_add. cbn [binary_normalize].
  replace (Z.min (da - 53) (db - 53)) with (- Z.of_nat K) by lia.
  apply binary_round_exact. exact Hdab.
Qed.

(** The sum of two non-negative integers, taken in binary64, is the integer
    sum as long as it stays below 2^53. *)
Lemma number_of_Z_add a b :
  0 <= a -> 0 <= b -> a + b < 2 ^ 53 ->
  (number_of_Z a + number_of_Z b)%float = number_of_Z (a + b).
Proof.
  intros Ha Hb Hab. apply Prim2SF_inj.
  rewrite FloatAxioms.add_spec, !Prim2SF_number_of_Z by lia.
  now apply SFadd_SF_of_Z.
Qed.

End SafeIntegers.

(** ** The operators on numbers *)

Section Numbers.
Context {rt : JsRuntime}.

Lemma js_add_numbers x y : js_add (VNumber x) (VNumber y) = VNumber (x + y)%float.
Proof. reflexivity. Qed.

Lemma is_number_spec v : is_number v = true -> v = VNumber (ToNumber v).
Proof. destruct v; simpl; congruence. Qed.

(** A [reduce] that adds one field of every element. *)
Lemma fold_js_add_field {A} (field : A -> value) (l : list A) (sum : value) :
  fold_left (fun sum x => js_add sum (field x)) l sum
  = fold_left js_add (map field l) sum.
Proof. revert sum. induction l as [|x l IH]; intros sum; simpl; auto. Qed.

(** Adding numbers to a number keeps a number. *)
Lemma fold_js_add_numbers (xs : list float) (sum : float) :
  fold_left js_add (map VNumber xs) (VNumber sum)
  = VNumber (fold_left PrimFloat.add xs sum).
Proof.
  revert sum. induction xs as [|x xs IH]; intros sum; [reflexivity|].
  simpl. rewrite IH. reflexivity.
Qed.

Lemma partial_sum_ext f g n :
  (forall i, (i < n)%nat -> f i = g i) -> partial_sum f n = partial_sum g n.
Proof.
  induction n as [|n IH]; intros H; [reflexivity|].
  simpl. rewrite IH by (intros; apply H; lia). rewrite H by lia. reflexivity.
Qed.

Lemma sum_of_snoc xs x : sum_of (xs ++ [x]) = (sum_of xs + x)%float.
Proof.
  unfold sum_of. rewrite length_app, Nat.add_1_r. simpl. f_equal.
  - apply partial_sum_ext. intros i Hi. now rewrite app_nth1.
  - now rewrite app_nth2, Nat.sub_diag by lia.
Qed.

(** The accumulation that [reduce] performs from 0 is the finite sum. *)
Lemma fold_add_sum_of xs : fold_left PrimFloat.add xs 0%float = sum_of xs.
Proof.
  induction xs as [|x xs IH] using rev_ind; [reflexivity|].
  now rewrite fold_left_app, sum_of_snoc, <- IH.
Qed.

Lemma numeric_fields {A} (field : A -> value) (records : list A) :
  forallb (fun x => is_number (field x)) records = true ->
  map field records = map VNumber (map (fun x => ToNumber (field x)) records).
Proof.
  induction records as [|sale records IH]; [reflexivity|].
  simpl. intros H. apply andb_prop in H as [H1 H2].
  now rewrite <- IH, <- is_number_spec.
Qed.

Lemma numeric_amounts records :
  forallb numeric records = true ->
  forallb (fun sale => is_number (amount sale)) records = true.
Proof.
  rewrite !forallb_forall. intros H sale Hin.
  specialize (H sale Hin). unfold numeric in H. now apply andb_prop in H.
Qed.

Lemma numeric_quantities records :
  forallb numeric records = true ->
  forallb (fun sale => is_number (quantity sale)) records = true.
Proof.
  rewrite !forallb_forall. intros H sale Hin.
  specialize (H sale Hin). unfold numeric in H. now apply andb_prop in H.
Qed.

(** The total of a numeric field, as [GET /analytics/sales] computes it. *)
Lemma reduce_numeric_field (field : Sale -> value) (records : list Sale) :
  forallb (fun sale => is_number (field sale)) records = true ->
  fold_left (fun sum sale => js_add sum (field sale)) records (VNumber 0)
  = VNumber (sum_of (map (fun sale => ToNumber (field sale)) records)).
Proof.
  intros H.
  now rewrite fold_js_add_field, numeric_fields, fold_js_add_numbers, fold_add_sum_of.
Qed.

End Numbers.

(** ** GET /analytics/sales *)

Section SalesStatistics.
Context {rt : JsRuntime}.

(** C1: for every sequence of sale records (a quantity and an amount that are
    numbers, as the service's schema has them), [computeSalesStats] returns
    [totalSales], the sum of the amounts over all records; [totalQuantity],
    the sum of the quantities; [salesCount], the number of records;
    [averageSale], [totalSales] divided by [salesCount]; and [salesData], the
    record sequence itself.  [GET /analytics/sales] answers 200 with that
    object. *)
Theorem computeSalesStats_spec (records : list Sale) :
  forallb numeric records = true ->
  let stats := computeSalesStats records in
  totalSales stats
    = VNumber (sum_of (map (fun sale => ToNumber (amount sale)) records)) /\
  totalQuantity stats
    = VNumber (sum_of (map (fun sale => ToNumber (quantity sale)) records)) /\
  salesCount stats = length records /\
  averageSale stats
    = js_div (totalSales stats) (VNumber (number_of_nat (salesCount stats))) /\
  averageSale stats
    = VNumber (sum_of (map (fun sale => ToNumber (amount sale)) records)
               / number_of_nat (length records))%float /\
  salesData stats = records /\
  get_analytics_sales records = {| status := 200; payload := stats |}.
Proof.
  intros Hnum stats.
  assert (Hsales : totalSales stats
    = VNumber (sum_of (map (fun sale => ToNumber (amount sale)) records))).
  { apply reduce_numeric_field, numeric_amounts, Hnum. }
  assert (Hquantity : totalQuantity stats
    = VNumber (sum_of (map (fun sale => ToNumber (quantity sale)) records))).
  { apply reduce_numeric_field, numeric_quantities, Hnum. }
  split; [exact Hsales|]. split; [exact Hquantity|].
  split; [reflexivity|]. split; [reflexivity|].
  split; [|split; reflexivity].
  change (averageSale stats)
    with (js_div (totalSales stats) (VNumber (number_of_nat (length records)))).
  now rewrite Hsales.
Qed.

(** C9: on an empty store the divisor [salesData.length] is 0, nothing guards
    the division, and [averageSale] is [0 / 0], that is NaN: not a finite
    number. *)
Theorem averageSale_of_empty_store :
  let stats := computeSalesStats [] in
  salesCount stats = 0%nat /\
  number_of_nat (salesCount stats) = 0%float /\
  averageSale stats = js_div (VNumber 0) (VNumber (number_of_nat (salesCount stats))) /\
  averageSale stats = VNumber PrimFloat.nan /\
  is_finite PrimFloat.nan = false.
Proof. repeat split. Qed.

End SalesStatistics.

(** The two fixture records are numeric: their statistics. *)
Lemma computeSalesStats_spec_witness :
  forallb numeric initial_salesData = true /\
  totalSales (computeSalesStats (rt := sample_runtime) initial_salesData)
    = VNumber 12500 /\
  averageSale (computeSalesStats (rt := sample_runtime) initial_salesData)
    = VNumber 6250.
Proof.
  split; [reflexivity|].
  pose proof (computeSalesStats_spec (rt := sample_runtime) initial_salesData eq_refl)
    as (Hsales & _ & _ & _ & Haverage & _).
  split; [exact Hsales | exact Haverage].
Defined.

(** ** The append operation: POST /analytics/sales and POST /notifications *)

(** C2: on every store, the append operation gives the new record the id
    [length + 1], takes its date (the part of the clock reading before 'T') or
    timestamp (the clock reading) from the clock, copies the fields of the
    request body, puts the record at the end of the sequence, and answers 201
    with that very record. *)
Theorem append_stores_and_returns_the_record :
  (forall (now : string) (body : SaleBody) (store : list Sale),
      let result := post_analytics_sales now body store in
      let record := payload result.2 in
      Analytics.id record = Z.of_nat (length store) + 1 /\
      date record = first (split "T" now) /\
      product record = body_product body /\
      quantity record = body_quantity body /\
      amount record = body_amount body /\
      result.1 = (store ++ [record])%list /\
      last result.1 = Some record /\
      status result.2 = 201%nat) /\
  (forall (now : string) (body : Notification.NotificationBody)
          (store : list Notification.Notification),
      let result := Notification.post_notifications now body store in
      let record := payload result.2 in
      Notification.id record = Z.of_nat (length store) + 1 /\
      Notification.timestamp record = now /\
      Notification.message record = Notification.body_message body /\
      Notification.type record = Notification.body_type body /\
      result.1 = (store ++ [record])%list /\
      last result.1 = Some record /\
      status result.2 = 201%nat).
Proof.
  split; intros now body store result record;
    repeat split; apply last_snoc.
Qed.

Lemma first_split_prefix sep day time :
  (forall c, In c (list_ascii_of_string day) -> c <> sep) ->
  first (split sep (String.append day (String sep time))) = day.
Proof.
  unfold split. cbn [first].
  induction day as [|c day IH]; intros H; simpl.
  - now rewrite Ascii.eqb_refl.
  - destruct (Ascii.eqb_spec c sep) as [->|_].
    + exfalso. apply (H sep); [now left | reflexivity].
    + simpl. f_equal. apply IH. intros c' Hc'. apply H. now right.
Qed.

(** X3: the date of a sale is the calendar day of the clock reading: of an
    ISO-8601 instant [day ++ "T" ++ time], the part [day]. *)
Theorem date_of_iso day time :
  (forall c, In c (list_ascii_of_string day) -> c <> "T"%char) ->
  date_of (String.append day (String "T" time)) = day.
Proof. apply first_split_prefix. Qed.

Lemma date_of_iso_witness :
  date_of "2024-02-01T08:00:00.000Z" = "2024-02-01".
Proof.
  apply (date_of_iso "2024-02-01" "08:00:00.000Z").
  intros c Hin. simpl in Hin.
  repeat (destruct Hin as [<- | Hin]; [discriminate|]). destruct Hin.
Defined.

(** C8: a request whose body lacks a required field is not rejected: the
    append operation answers 201, stores the record it returns, and the
    missing field of that record is [undefined]. *)
Theorem append_accepts_missing_fields :
  (forall (now : string) (body : SaleBody) (store : list Sale),
      missing_sale_field body ->
      let result := post_analytics_sales now body store in
      let record := payload result.2 in
      status result.2 = 201%nat /\
      result.1 = (store ++ [record])%list /\
      (body_product body = VUndefined -> product record = VUndefined) /\
      (body_quantity body = VUndefined -> quantity record = VUndefined) /\
      (body_amount body = VUndefined -> amount record = VUndefined)) /\
  (forall (now : string) (body : Notification.NotificationBody)
          (store : list Notification.Notification),
      missing_notification_field body ->
      let result := Notification.post_notifications now body store in
      let record := payload result.2 in
      status result.2 = 201%nat /\
      result.1 = (store ++ [record])%list /\
      (Notification.body_message body = VUndefined ->
       Notification.message record = VUndefined) /\
      (Notification.body_type body = VUndefined ->
       Notification.type record = VUndefined)).
Proof.
  split; intros now body store _ result record; repeat split; auto.
Qed.

(** A sale posted without its amount. *)
Lemma append_accepts_missing_fields_witness :
  let body := {| body_product := VString "Розы"; body_quantity := VNumber 3;
                 body_amount := VUndefined |} in
  let result := post_analytics_sales "2024-02-01T08:00:00.000Z" body initial_salesData in
  missing_sale_field body /\
  status result.2 = 201%nat /\
  amount (payload result.2) = VUndefined /\
  last result.1 = Some (payload result.2).
Proof.
  intros body result.
  assert (Hmissing : missing_sale_field body) by (right; right; reflexivity).
  pose proof (proj1 append_accepts_missing_fields
                "2024-02-01T08:00:00.000Z" body initial_salesData Hmissing)
    as (Hstatus & Hstore & _ & _ & Hamount).
  split; [exact Hmissing|]. split; [exact Hstatus|].
  split; [apply Hamount; reflexivity|].
  unfold result. rewrite Hstore. apply last_snoc.
Defined.

(** ** The stores over the life of the process *)

Lemma ids_upto_S n : ids_upto (S n) = (ids_upto n ++ [Z.of_nat n + 1])%list.
Proof. unfold ids_upto. rewrite seqZ_S. f_equal. f_equal. lia. Qed.

Lemma analytics_ids store :
  Analytics.reachable store -> map Analytics.id store = ids_upto (length store).
Proof.
  induction 1 as [|now body store _ IH]; [reflexivity|].
  cbn [fst post_analytics_sales].
  rewrite map_app, length_app, Nat.add_1_r, ids_upto_S, IH. reflexivity.
Qed.

Lemma notification_ids store :
  Notification.reachable store ->
  map Notification.id store = ids_upto (length store).
Proof.
  induction 1 as [|now body store _ IH]; [reflexivity|].
  cbn [fst Notification.post_notifications].
  rewrite map_app, length_app, Nat.add_1_r, ids_upto_S, IH. reflexivity.
Qed.

(** C7: in every state of a store that the process can reach (the fixtures,
    then [push] after [push]: nothing removes a record), an append assigns the
    number of existing records plus one as id, and the ids in the store are
    pairwise distinct: they are 1, 2, ..., [length]. *)
Theorem reachable_ids_are_distinct :
  (forall store : list Sale,
      Analytics.reachable store ->
      (forall now body,
          Analytics.id (payload (post_analytics_sales now body store).2)
          = Z.of_nat (length store) + 1) /\
      map Analytics.id store = ids_upto (length store) /\
      NoDup (map Analytics.id store)) /\
  (forall store : list Notification.Notification,
      Notification.reachable store ->
      (forall now body,
          Notification.id (payload (Notification.post_notifications now body store).2)
          = Z.of_nat (length store) + 1) /\
      map Notification.id store = ids_upto (length store) /\
      NoDup (map Notification.id store)).
Proof.
  split; intros store Hreach.
  - pose proof (analytics_ids store Hreach) as Hids.
    split; [reflexivity|]. split; [exact Hids|].
    rewrite Hids. apply NoDup_seqZ.
  - pose proof (notification_ids store Hreach) as Hids.
    split; [reflexivity|]. split; [exact Hids|].
    rewrite Hids. apply NoDup_seqZ.
Qed.

(** The store after one append. *)
Lemma reachable_ids_are_distinct_witness :
  let store := (post_analytics_sales "2024-02-01T08:00:00.000Z" roses_body
                  initial_salesData).1 in
  Analytics.reachable store /\ map Analytics.id store = [1; 2; 3] /\
  NoDup (map Analytics.id store).
Proof.
  intros store.
  assert (Hreach : Analytics.reachable store)
    by (apply Analytics.reachable_post, Analytics.reachable_start).
  pose proof (proj1 reachable_ids_are_distinct store Hreach) as (_ & Hids & Hnodup).
  split; [exact Hreach|]. split; [exact Hids | exact Hnodup].
Defined.

(** ** Statistics after appends *)

(** One more request is one more [push]. *)
Lemma post_all_snoc requests now body store :
  post_all (requests ++ [(now, body)]) store
  = (post_analytics_sales now body (post_all requests store)).1.
Proof. unfold post_all. now rewrite fold_left_app. Qed.

Lemma post_all_length requests store :
  length (post_all requests store) = (length store + length requests)%nat.
Proof.
  induction requests as [|[now body] requests IH] using rev_ind; [simpl; lia|].
  rewrite post_all_snoc. cbn [fst post_analytics_sales].
  rewrite !length_app, IH. simpl. lia.
Qed.

Lemma post_all_quantities requests store :
  map quantity (post_all requests store)
  = (map quantity store ++ map (fun request => body_quantity request.2) requests)%list.
Proof.
  induction requests as [|[now body] requests IH] using rev_ind;
    [simpl; now rewrite app_nil_r|].
  rewrite post_all_snoc. cbn [fst post_analytics_sales].
  rewrite !map_app, IH, <- app_assoc. reflexivity.
Qed.

Section StatisticsAfterAppends.
Context {rt : JsRuntime}.

(** C4, as the service has it: the store starts with its two fixture records,
    so after N appends with numeric quantities [salesCount] is N + 2 and
    [totalQuantity] is the sum of the fixtures' 15 and 25 followed by the
    appended quantities. *)
Theorem stats_after_appends (requests : list (string * SaleBody)) :
  forallb (fun request => is_number (body_quantity request.2)) requests = true ->
  let stats := computeSalesStats (post_all requests initial_salesData) in
  salesCount stats = (length requests + 2)%nat /\
  totalQuantity stats
    = VNumber (sum_of (15 :: 25 ::
        map (fun request => ToNumber (body_quantity request.2)) requests))%float.
Proof.
  intros Hnum stats. split.
  - unfold stats. cbn [salesCount computeSalesStats].
    rewrite post_all_length. simpl. lia.
  - unfold stats. cbn [totalQuantity computeSalesStats].
    rewrite fold_js_add_field, post_all_quantities.
    rewrite (numeric_fields (fun request => body_quantity request.2)) by exact Hnum.
    change (map quantity initial_salesData) with (map VNumber [15; 25]%float).
    rewrite <- map_app, fold_js_add_numbers, fold_add_sum_of. reflexivity.
Qed.

(** C5, as the service has it: with the two fixtures in the store, the
    specification's append of "Розы" (quantity 15, amount 7500) brings
    [totalSales] to 7500 + 5000 + 7500 = 20000, [salesCount] to 3 and
    [averageSale] to 20000 / 3. *)
Theorem stats_after_appending_roses (now : string) :
  let store := (post_analytics_sales now roses_body initial_salesData).1 in
  let stats := computeSalesStats store in
  totalSales stats = VNumber 20000 /\
  salesCount stats = 3%nat /\
  averageSale stats = VNumber (20000 / 3)%float /\
  averageSale stats = VNumber 6666.666666666667.
Proof. repeat split. Qed.

End StatisticsAfterAppends.

(** One append of the specification's example. *)
Lemma stats_after_appends_witness :
  let requests := [("2024-02-01T08:00:00.000Z", roses_body)] in
  let stats := computeSalesStats (rt := sample_runtime)
                 (post_all requests initial_salesData) in
  forallb (fun request => is_number (body_quantity request.2)) requests = true /\
  salesCount stats = 3%nat /\ totalQuantity stats = VNumber 55.
Proof.
  intros requests stats. split; [reflexivity|].
  exact (stats_after_appends (rt := sample_runtime) requests eq_refl).
Defined.

(** The claim C4 as the specification words it fails on the first append:
    one sale of quantity 15 is appended, and the statistics count 3 sales
    and a quantity of 55. *)
Lemma appended_sales_are_not_the_whole_store :
  let requests := [("2024-02-01T08:00:00.000Z", roses_body)] in
  let stats := computeSalesStats (rt := sample_runtime)
                 (post_all requests initial_salesData) in
  salesCount stats <> length requests /\
  totalQuantity stats
    <> VNumber (sum_of (map (fun request =>
         ToNumber (rt := sample_runtime) (body_quantity request.2)) requests)).
Proof.
  split.
  - vm_compute. discriminate.
  - intros H. numbers_differ H.
Qed.

(** The claim C5 as the specification words it: none of the three figures
    is the one the service answers. *)
Lemma roses_example_figures_differ :
  let store := (post_analytics_sales "2024-02-01T08:00:00.000Z" roses_body
                  initial_salesData).1 in
  let stats := computeSalesStats (rt := sample_runtime) store in
  totalSales stats <> VNumber 15000 /\
  salesCount stats <> 2%nat /\
  averageSale stats <> VNumber 7500.
Proof.
  split; [|split].
  - intros H. numbers_differ H.
  - vm_compute. discriminate.
  - intros H. numbers_differ H.
Qed.

(** ** The stores at process start *)

(** C6, as the services have it: the notification store starts with one
    fixture record, the analytics store with two. *)
Theorem stores_at_start :
  length Notification.initial_notifications = 1%nat /\
  length initial_salesData = 2%nat /\
  map Analytics.id initial_salesData = [1; 2] /\
  map Notification.id Notification.initial_notifications = [1].
Proof. repeat split. Qed.

(** The claim C6 as the specification words it fails for the analytics
    service. *)
Lemma analytics_store_has_two_fixtures :
  ~ (length initial_salesData = 1%nat /\
     length Notification.initial_notifications = 1%nat).
Proof. intros [H _]. discriminate H. Qed.

(** ** GET /analytics/products *)

Section ProductReport.
Context {rt : JsRuntime}.

Lemma get_own (h : heap) key stats :
  h.1 !! key = Some stats -> get h key = OwnStats stats.
Proof. intros H. unfold get. now rewrite H. Qed.

(** A key that is not an own property and not an inherited name reads as
    something falsy, as long as the prototype is not polluted. *)
Lemma get_absent_is_falsy (h : heap) key :
  h.1 !! key = None -> ordinary key = true -> unpolluted h.2 = true ->
  is_falsy (get h key) = true.
Proof.
  intros Hnone Hord Hproto. unfold get. rewrite Hnone.
  unfold ordinary in Hord. apply negb_true_iff, orb_false_iff in Hord as [H1 H2].
  rewrite H1, H2.
  unfold unpolluted in Hproto. apply andb_prop in Hproto as [Hq Ha].
  destruct (String.eqb key "totalQuantity"); [exact Hq|].
  destruct (String.eqb key "totalAmount"); [exact Ha|reflexivity].
Qed.

(** On a sale with an ordinary product name the callback of [reduce] creates
    or updates the entry of that name, and nothing else. *)
Lemma productStats_step_ordinary (h : heap) sale key :
  product sale = VString key -> ordinary key = true -> unpolluted h.2 = true ->
  productStats_step h sale
  = (<[key := add_sale (default empty_stats (h.1 !! key)) sale]> h.1, h.2).
Proof.
  intros Hkey Hord Hproto. unfold productStats_step.
  rewrite Hkey. cbn [ToPropertyKey ToString].
  destruct (h.1 !! key) as [stats|] eqn:Hlookup.
  - rewrite (get_own h key stats Hlookup). cbn [is_falsy].
    unfold add_totalQuantity. rewrite (get_own h key stats Hlookup).
    unfold add_totalAmount. rewrite (get_own _ key _ (lookup_insert_eq _ _ _)).
    cbn [fst snd Product.totalQuantity Product.totalAmount].
    now rewrite insert_insert_eq.
  - rewrite (get_absent_is_falsy h key Hlookup Hord Hproto).
    unfold add_totalQuantity. rewrite (get_own _ key _ (lookup_insert_eq _ _ _)).
    unfold add_totalAmount. rewrite (get_own _ key _ (lookup_insert_eq _ _ _)).
    cbn [fst snd Product.totalQuantity Product.totalAmount].
    now rewrite !insert_insert_eq.
Qed.

Lemma computeProductReport_snoc proto records sale :
  computeProductReport proto (records ++ [sale])
  = productStats_step (computeProductReport proto records) sale.
Proof. unfold computeProductReport. now rewrite fold_left_app. Qed.

Lemma has_product_spec key sale :
  has_product key sale = true <-> product sale = VString key.
Proof.
  unfold has_product. destruct (product sale) as [| | | |s]; try (split; congruence).
  rewrite String.eqb_eq. split; congruence.
Qed.

Lemma group_of_snoc key records sale :
  group_of key (records ++ [sale])
  = if has_product key sale
    then Some (add_sale (default empty_stats (group_of key records)) sale)
    else group_of key records.
Proof.
  unfold group_of. rewrite List.filter_app. cbn [List.filter].
  destruct (has_product key sale).
  - destruct (List.filter (has_product key) records) as [|s l]; [reflexivity|].
    change ((s :: l) ++ [sale])%list with (s :: (l ++ [sale]))%list.
    cbn [default]. f_equal.
    change (s :: (l ++ [sale]))%list with ((s :: l) ++ [sale])%list.
    now rewrite fold_left_app.
  - now rewrite app_nil_r.
Qed.

(** The report over records with ordinary product names: the prototype is
    left alone, and each key holds the group of its product. *)
Lemma computeProductReport_ordinary proto records :
  forallb ordinary_sale records = true -> unpolluted proto = true ->
  (computeProductReport proto records).2 = proto /\
  forall key, (computeProductReport proto records).1 !! key = group_of key records.
Proof.
  intros Hord Hproto.
  induction records as [|sale records IH] using rev_ind.
  - split; [reflexivity|]. intros key. apply lookup_empty.
  - rewrite forallb_app in Hord. apply andb_prop in Hord as [Hrecords Hsale].
    cbn [forallb] in Hsale. rewrite andb_true_r in Hsale.
    destruct (IH Hrecords) as [IHproto IHlookup].
    unfold ordinary_sale in Hsale.
    destruct (product sale) as [| | | |name] eqn:Hname; try discriminate Hsale.
    rewrite computeProductReport_snoc.
    rewrite (productStats_step_ordinary _ sale name Hname Hsale)
      by (now rewrite IHproto).
    split; [exact IHproto|]. intros key. rewrite group_of_snoc. cbn [fst].
    destruct (has_product key sale) eqn:Hkey.
    + apply has_product_spec in Hkey. rewrite Hname in Hkey.
      injection Hkey as ->. now rewrite lookup_insert_eq, IHlookup.
    + rewrite lookup_insert_ne; [apply IHlookup|].
      intros ->. rewrite (proj2 (has_product_spec key sale) Hname) in Hkey.
      discriminate Hkey.
Qed.

End ProductReport.

(** ** Integer sales: the report and the statistics agree *)

Lemma sum_Z_nonneg zs : Forall (fun z => 0 <= z) zs -> 0 <= sum_Z zs.
Proof. induction 1 as [|z zs Hz _ IH]; simpl; lia. Qed.

Lemma sum_Z_Permutation zs zs' : zs ≡ₚ zs' -> sum_Z zs = sum_Z zs'.
Proof. induction 1; simpl; lia. Qed.

Lemma list_fmap_map {A B} (f : A -> B) (l : list A) : f <$> l = map f l.
Proof. induction l as [|x l IH]; [reflexivity|]. csimpl. now rewrite IH. Qed.

Lemma map_total_empty component : map_total component ∅ = 0.
Proof. unfold map_total. now rewrite map_to_list_empty. Qed.

Lemma map_total_insert_fresh component (m : gmap string (Z * Z)) key total :
  m !! key = None ->
  map_total component (<[key := total]> m) = component total + map_total component m.
Proof.
  intros Hnone. unfold map_total.
  rewrite (sum_Z_Permutation _ _
    (Permutation_map _ (map_to_list_insert m key total Hnone))).
  reflexivity.
Qed.

Lemma map_total_insert_update component (m : gmap string (Z * Z)) key old total :
  m !! key = Some old ->
  map_total component (<[key := total]> m)
  = component total - component old + map_total component m.
Proof.
  intros Hsome.
  rewrite <- (insert_delete_eq m key total).
  rewrite map_total_insert_fresh by apply lookup_delete_eq.
  unfold map_total at 2.
  rewrite <- (sum_Z_Permutation _ _
    (Permutation_map _ (map_to_list_delete m key old Hsome))).
  simpl. fold (map_total component (delete key m)). lia.
Qed.

Lemma map_total_integer_step_quantity m entry :
  map_total fst (integer_step m entry) = map_total fst m + entry.2.1.
Proof.
  unfold integer_step. destruct (m !! entry.1) as [old|] eqn:Hlookup.
  - rewrite (map_total_insert_update fst m _ old) by exact Hlookup. simpl. lia.
  - rewrite map_total_insert_fresh by exact Hlookup. lia.
Qed.

Lemma map_total_integer_step_amount m entry :
  map_total snd (integer_step m entry) = map_total snd m + entry.2.2.
Proof.
  unfold integer_step. destruct (m !! entry.1) as [old|] eqn:Hlookup.
  - rewrite (map_total_insert_update snd m _ old) by exact Hlookup. simpl. lia.
  - rewrite map_total_insert_fresh by exact Hlookup. lia.
Qed.

(** The groups of an integer report partition the records: their totals add
    up to the totals over all records. *)
Lemma map_total_fold m entries :
  map_total fst (fold_left integer_step entries m)
    = map_total fst m + sum_Z (quantities entries) /\
  map_total snd (fold_left integer_step entries m)
    = map_total snd m + sum_Z (amounts entries).
Proof.
  revert m. induction entries as [|entry entries IH]; intros m; simpl.
  - lia.
  - destruct (IH (integer_step m entry)) as [IHq IHa].
    rewrite IHq, IHa, map_total_integer_step_quantity, map_total_integer_step_amount.
    lia.
Qed.

Lemma integer_sale_nonneg records entries :
  Forall2 integer_sale records entries ->
  Forall (fun z => 0 <= z) (quantities entries) /\
  Forall (fun z => 0 <= z) (amounts entries).
Proof.
  induction 1 as [|sale entry records entries (_ & _ & _ & Hq & _ & Ha) _ [IHq IHa]];
    simpl; split; constructor; assumption.
Qed.

Section IntegerSales.
Context {rt : JsRuntime}.

(** Accumulating non-negative integers whose sum stays below 2^53 never
    rounds: the result is the integer sum. *)
Lemma fold_js_add_integers (zs : list Z) (start : Z) :
  0 <= start -> Forall (fun z => 0 <= z) zs -> start + sum_Z zs < 2 ^ 53 ->
  fold_left js_add (map (fun z => VNumber (number_of_Z z)) zs) (VNumber (number_of_Z start))
  = VNumber (number_of_Z (start + sum_Z zs)).
Proof.
  intros Hstart Hzs. revert start Hstart.
  induction Hzs as [|z zs Hz Hzs IH]; intros start Hstart Hsum; simpl in *.
  - now rewrite Z.add_0_r.
  - pose proof (sum_Z_nonneg zs Hzs) as Hrest.
    rewrite ?js_add_numbers, number_of_Z_add by lia.
    rewrite IH by lia. f_equal. f_equal. lia.
Qed.

Lemma integer_sale_quantities records entries :
  Forall2 integer_sale records entries ->
  map quantity records = map (fun z => VNumber (number_of_Z z)) (quantities entries).
Proof.
  induction 1 as [|sale entry records entries (_ & _ & Hq & _) _ IH]; simpl;
    congruence.
Qed.

Lemma integer_sale_amounts records entries :
  Forall2 integer_sale records entries ->
  map amount records = map (fun z => VNumber (number_of_Z z)) (amounts entries).
Proof.
  induction 1 as [|sale entry records entries (_ & _ & _ & _ & Ha & _) _ IH]; simpl;
    congruence.
Qed.

(** The statistics over integer sales are the integer totals. *)
Lemma computeSalesStats_integers records entries :
  Forall2 integer_sale records entries ->
  sum_Z (quantities entries) < 2 ^ 53 -> sum_Z (amounts entries) < 2 ^ 53 ->
  totalQuantity (computeSalesStats records)
    = VNumber (number_of_Z (sum_Z (quantities entries))) /\
  totalSales (computeSalesStats records)
    = VNumber (number_of_Z (sum_Z (amounts entries))).
Proof.
  intros Hsales Hq Ha. destruct (integer_sale_nonneg _ _ Hsales) as [Hq0 Ha0].
  cbn [totalQuantity totalSales computeSalesStats].
  rewrite (fold_js_add_field quantity), (fold_js_add_field amount).
  rewrite (integer_sale_quantities _ _ Hsales), (integer_sale_amounts _ _ Hsales).
  change (VNumber 0) with (VNumber (number_of_Z 0)).
  split; rewrite fold_js_add_integers by (assumption || lia); reflexivity.
Qed.

(** One step of the report on an integer sale is one step of the integer
    report, as long as the group stays below 2^53. *)
Lemma productStats_step_integer (m : gmap string (Z * Z)) proto sale entry :
  integer_sale sale entry -> unpolluted proto = true ->
  (forall total, m !! entry.1 = Some total ->
     0 <= total.1 /\ total.1 + entry.2.1 < 2 ^ 53 /\
     0 <= total.2 /\ total.2 + entry.2.2 < 2 ^ 53) ->
  entry.2.1 < 2 ^ 53 -> entry.2.2 < 2 ^ 53 ->
  productStats_step (stats_of_integers <$> m, proto) sale
  = (stats_of_integers <$> integer_step m entry, proto).
Proof.
  intros (Hkey & Hord & Hq & Hq0 & Ha & Ha0) Hproto Hgroup Hqb Hab.
  rewrite (productStats_step_ordinary (stats_of_integers <$> m, proto) sale entry.1
             Hkey Hord Hproto).
  cbn [fst snd]. f_equal. rewrite lookup_fmap. unfold integer_step.
  destruct (m !! entry.1) as [total|] eqn:Hlookup; cbn [fmap option_fmap option_map default];
    rewrite fmap_insert; f_equal.
  - destruct (Hgroup total eq_refl) as (Ht1 & Hb1 & Ht2 & Hb2).
    unfold add_sale, stats_of_integers, Datatypes.id. rewrite Hq, Ha.
    cbn [Product.totalQuantity Product.totalAmount fst snd].
    now rewrite !js_add_numbers, !number_of_Z_add by lia.
  - unfold add_sale, stats_of_integers, empty_stats. rewrite Hq, Ha.
    cbn [Product.totalQuantity Product.totalAmount].
    change (VNumber 0) with (VNumber (number_of_Z 0)).
    now rewrite !js_add_numbers, !number_of_Z_add by lia.
Qed.

Lemma within_bounds_step m entry entries :
  0 <= entry.2.1 -> 0 <= entry.2.2 ->
  Forall (fun z => 0 <= z) (quantities entries) ->
  Forall (fun z => 0 <= z) (amounts entries) ->
  sum_Z (quantities (entry :: entries)) < 2 ^ 53 ->
  sum_Z (amounts (entry :: entries)) < 2 ^ 53 ->
  within_bounds m (entry :: entries) ->
  within_bounds (integer_step m entry) entries.
Proof.
  intros Hq0 Ha0 Hqs Has Hqb Hab Hm key total.
  pose proof (sum_Z_nonneg _ Hqs) as Hq. pose proof (sum_Z_nonneg _ Has) as Ha.
  simpl in Hqb, Hab. unfold integer_step.
  destruct (m !! entry.1) as [old|] eqn:Hold.
  - destruct (decide (entry.1 = key)) as [<-|Hne].
    + rewrite lookup_insert_eq. intros [= <-].
      destruct (Hm _ _ Hold) as (H1 & H2 & H3 & H4). simpl in *. lia.
    + rewrite lookup_insert_ne by exact Hne. intros Hlookup.
      destruct (Hm _ _ Hlookup) as (H1 & H2 & H3 & H4). simpl in *. lia.
  - destruct (decide (entry.1 = key)) as [<-|Hne].
    + rewrite lookup_insert_eq. intros [= <-]. lia.
    + rewrite lookup_insert_ne by exact Hne. intros Hlookup.
      destruct (Hm _ _ Hlookup) as (H1 & H2 & H3 & H4). simpl in *. lia.
Qed.

(** The report over integer sales is the integer report. *)
Lemma fold_productStats_step_integers records entries :
  Forall2 integer_sale records entries ->
  forall m proto,
    unpolluted proto = true -> within_bounds m entries ->
    sum_Z (quantities entries) < 2 ^ 53 -> sum_Z (amounts entries) < 2 ^ 53 ->
    fold_left productStats_step records (stats_of_integers <$> m, proto)
    = (stats_of_integers <$> fold_left integer_step entries m, proto).
Proof.
  induction 1 as [|sale entry records entries Hsale Hrest IH];
    intros m proto Hproto Hm Hqb Hab; [reflexivity|].
  destruct (integer_sale_nonneg _ _ Hrest) as [Hqs Has].
  pose proof (sum_Z_nonneg _ Hqs) as Hq. pose proof (sum_Z_nonneg _ Has) as Ha.
  pose proof Hsale as (_ & _ & _ & Hq0 & _ & Ha0).
  cbn [fold_left].
  rewrite (productStats_step_integer m proto sale entry Hsale Hproto).
  - apply IH; [exact Hproto| |simpl in *; lia|simpl in *; lia].
    now apply within_bounds_step.
  - intros total Hlookup. destruct (Hm _ _ Hlookup) as (H1 & H2 & H3 & H4).
    simpl in *. lia.
  - simpl in Hqb. lia.
  - simpl in Hab. lia.
Qed.

Lemma computeProductReport_integers proto records entries :
  Forall2 integer_sale records entries -> unpolluted proto = true ->
  sum_Z (quantities entries) < 2 ^ 53 -> sum_Z (amounts entries) < 2 ^ 53 ->
  computeProductReport proto records
  = (stats_of_integers <$> integer_report entries, proto).
Proof.
  intros Hsales Hproto Hqb Hab. unfold computeProductReport, integer_report.
  rewrite <- (fold_productStats_step_integers records entries Hsales ∅ proto);
    try assumption.
  - now rewrite fmap_empty.
  - intros key total Hlookup. now rewrite lookup_empty in Hlookup.
Qed.

End IntegerSales.

Lemma integer_step_nonneg m entry :
  0 <= entry.2.1 -> 0 <= entry.2.2 ->
  map_Forall (fun _ total => 0 <= total.1 /\ 0 <= total.2) m ->
  map_Forall (fun _ total => 0 <= total.1 /\ 0 <= total.2) (integer_step m entry).
Proof.
  intros Hq Ha Hm. unfold integer_step.
  destruct (m !! entry.1) as [old|] eqn:Hold.
  - apply map_Forall_insert_2; [|exact Hm].
    destruct (Hm _ _ Hold). simpl. lia.
  - apply map_Forall_insert_2; [|exact Hm]. lia.
Qed.

Lemma integer_report_nonneg records entries :
  Forall2 integer_sale records entries ->
  Forall (fun group : string * (Z * Z) => 0 <= group.2.1 /\ 0 <= group.2.2)
    (map_to_list (integer_report entries)).
Proof.
  intros Hsales. unfold integer_report.
  assert (H : forall m,
    map_Forall (fun _ total => 0 <= total.1 /\ 0 <= total.2) m ->
    map_Forall (fun _ total => 0 <= total.1 /\ 0 <= total.2)
      (fold_left integer_step entries m)).
  { clear -Hsales.
    induction Hsales as [|sale entry records entries (_ & _ & _ & Hq & _ & Ha) _ IH];
      intros m Hm; [exact Hm|].
    simpl. apply IH. now apply integer_step_nonneg. }
  specialize (H ∅ (map_Forall_empty _)).
  apply map_Forall_to_list in H.
  eapply Forall_impl; [exact H|]. intros [key total]. simpl. tauto.
Qed.

Section Conservation.
Context {rt : JsRuntime}.

(** The sum of a field over integer groups, in whatever order, is the integer
    sum. *)
Lemma sum_over_groups_integers (component : Z * Z -> Z)
    (field : Product.Stats -> value) (groups : list (string * (Z * Z))) :
  (forall total, field (stats_of_integers total) = VNumber (number_of_Z (component total))) ->
  Forall (fun group => 0 <= component group.2) groups ->
  sum_Z (map (fun group => component group.2) groups) < 2 ^ 53 ->
  sum_over_groups field (map (prod_map (fun key : string => key) stats_of_integers) groups)
  = VNumber (number_of_Z (sum_Z (map (fun group => component group.2) groups))).
Proof.
  intros Hfield Hnonneg Hbound. unfold sum_over_groups.
  rewrite (fold_js_add_field (fun group : string * Product.Stats => field group.2)).
  rewrite map_map.
  rewrite (map_ext _ (fun group => VNumber (number_of_Z (component group.2))))
    by (intros [key total]; apply Hfield).
  rewrite <- (map_map (fun group : string * (Z * Z) => component group.2)
                      (fun z => VNumber (number_of_Z z))).
  change (VNumber 0) with (VNumber (number_of_Z 0)).
  rewrite fold_js_add_integers; [reflexivity|lia| |lia].
  apply Forall_map. exact Hnonneg.
Qed.

(** C10, as the service has it: over sales with product names that an object
    does not inherit, and quantities and amounts that are non-negative
    integers with totals below 2^53 (so that no addition rounds), the report
    and the statistics agree: the [totalAmount] of all groups, added in any
    order, is [totalSales], and their [totalQuantity] is [totalQuantity]. *)
Theorem report_totals_agree_with_statistics
    (proto : ObjectPrototype) (records : list Sale)
    (entries : list (string * (Z * Z))) (groups : list (string * Product.Stats)) :
  Forall2 integer_sale records entries ->
  sum_Z (quantities entries) < 2 ^ 53 ->
  sum_Z (amounts entries) < 2 ^ 53 ->
  unpolluted proto = true ->
  groups ≡ₚ map_to_list (computeProductReport proto records).1 ->
  sum_over_groups Product.totalAmount groups = totalSales (computeSalesStats records) /\
  sum_over_groups Product.totalQuantity groups
    = totalQuantity (computeSalesStats records).
Proof.
  intros Hsales Hqb Hab Hproto Hgroups.
  rewrite (computeProductReport_integers proto records entries) in Hgroups
    by assumption.
  cbn [fst] in Hgroups. rewrite map_to_list_fmap, list_fmap_map in Hgroups.
  apply Permutation_map_inv in Hgroups as (groups' & -> & Hperm).
  destruct (computeSalesStats_integers records entries Hsales Hqb Hab) as [-> ->].
  pose proof (integer_report_nonneg records entries Hsales) as Hnonneg.
  rewrite Hperm in Hnonneg.
  destruct (map_total_fold ∅ entries) as [Hq Ha].
  rewrite !map_total_empty, !Z.add_0_l in Hq, Ha.
  fold (integer_report entries) in Hq, Ha. unfold map_total in Hq, Ha.
  rewrite (sum_Z_Permutation _ _ (Permutation_map _ Hperm)) in Hq.
  rewrite (sum_Z_Permutation _ _ (Permutation_map _ Hperm)) in Ha.
  split.
  - rewrite (sum_over_groups_integers snd).
    + now rewrite Ha.
    + reflexivity.
    + eapply Forall_impl; [exact Hnonneg|]. simpl. tauto.
    + rewrite Ha. exact Hab.
  - rewrite (sum_over_groups_integers fst).
    + now rewrite Hq.
    + reflexivity.
    + eapply Forall_impl; [exact Hnonneg|]. simpl. tauto.
    + rewrite Hq. exact Hqb.
Qed.

End Conservation.

(** The fixtures and the specification's example are integer sales. *)
Lemma report_totals_agree_with_statistics_witness :
  let records := (post_analytics_sales "2024-02-01T08:00:00.000Z" roses_body
                    initial_salesData).1 in
  let entries := [("Розы", (15, 7500)); ("Тюльпаны", (25, 5000)); ("Розы", (15, 7500))] in
  let report := (computeProductReport (rt := sample_runtime) pristine records).1 in
  Forall2 integer_sale records entries /\
  sum_Z (quantities entries) < 2 ^ 53 /\ sum_Z (amounts entries) < 2 ^ 53 /\
  unpolluted pristine = true /\
  sum_over_groups (rt := sample_runtime) Product.totalAmount (map_to_list report)
    = VNumber 20000 /\
  sum_over_groups (rt := sample_runtime) Product.totalQuantity (map_to_list report)
    = VNumber 55.
Proof.
  intros records entries report.
  assert (Hsales : Forall2 integer_sale records entries).
  { repeat constructor; simpl; lia. }
  assert (Hq : sum_Z (quantities entries) < 2 ^ 53) by (simpl; lia).
  assert (Ha : sum_Z (amounts entries) < 2 ^ 53) by (simpl; lia).
  split; [exact Hsales|]. split; [exact Hq|]. split; [exact Ha|].
  split; [reflexivity|].
  exact (report_totals_agree_with_statistics (rt := sample_runtime) pristine records
           entries (map_to_list report) Hsales Hq Ha eq_refl (Permutation_refl _)).
Defined.

Section Rounding.
Context {rt : JsRuntime}.

(** After two sales of 19.99 and 14.95 are posted to the started service,
    [totalSales] is 12534.94, while the groups' amounts (7519.99 and 5014.95)
    add up to 12534.939999999999 in either order: the two computations add
    the same four numbers in different orders, and round differently. *)
Lemma priced_groups_do_not_add_up (groups : list (string * Product.Stats)) :
  let store := post_all priced_requests initial_salesData in
  groups ≡ₚ map_to_list (computeProductReport pristine store).1 ->
  sum_over_groups Product.totalAmount groups <> totalSales (computeSalesStats store).
Proof.
  intros store Hperm Hsum.
  set (listed := map_to_list (computeProductReport pristine store).1) in Hperm.
  vm_compute in listed. subst listed. symmetry in Hperm.
  apply Permutation_length_2_inv in Hperm as [-> | ->]; numbers_differ Hsum.
Qed.

End Rounding.

(** The claim C10 as it is worded fails on fractional amounts: on the store
    above no order of the groups makes their amounts add up to [totalSales]. *)
Lemma report_and_statistics_round_differently :
  let store := post_all priced_requests initial_salesData in
  let report := (computeProductReport (rt := sample_runtime) pristine store).1 in
  ~ (exists groups : list (string * Product.Stats),
       groups ≡ₚ map_to_list report /\
       sum_over_groups (rt := sample_runtime) Product.totalAmount groups
       = totalSales (computeSalesStats (rt := sample_runtime) store)).
Proof.
  intros store report (groups & Hperm & Hsum).
  exact (priced_groups_do_not_add_up (rt := sample_runtime) groups Hperm Hsum).
Qed.

Section InheritedNames.
Context {rt : JsRuntime}.

(** C3 fails on a product named like a property that every object inherits:
    after a sale of "constructor" is posted, the product is in the store and
    the report has no key for it: [acc["constructor"]] is the inherited
    function [Object], it is truthy, the entry is never created, and the two
    [+=] write to [Object] itself. *)
Theorem report_omits_inherited_names (now : string) :
  let store := (post_analytics_sales now constructor_body initial_salesData).1 in
  let report := (computeProductReport pristine store).1 in
  In (VString "constructor") (map product store) /\
  report !! "constructor" = None /\
  (exists stats, report !! "Розы" = Some stats) /\
  (exists stats, report !! "Тюльпаны" = Some stats) /\
  size report = 2%nat.
Proof.
  intros store report. split; [right; right; left; reflexivity|].
  split; [vm_compute; reflexivity|].
  split; [eexists; vm_compute; reflexivity|].
  split; [eexists; vm_compute; reflexivity|].
  vm_compute; reflexivity.
Qed.

Lemma fold_add_sale_totals sales stats :
  Product.totalQuantity (fold_left add_sale sales stats)
    = fold_left (fun sum sale => js_add sum (quantity sale)) sales
        (Product.totalQuantity stats) /\
  Product.totalAmount (fold_left add_sale sales stats)
    = fold_left (fun sum sale => js_add sum (amount sale)) sales
        (Product.totalAmount stats).
Proof.
  revert stats. induction sales as [|sale sales IH]; intros stats; [now split|].
  simpl. destruct (IH (add_sale stats sale)) as [-> ->]. now split.
Qed.

Lemma group_of_Some key records stats :
  group_of key records = Some stats ->
  stats = fold_left add_sale (List.filter (has_product key) records) empty_stats.
Proof.
  unfold group_of. destruct (List.filter (has_product key) records); congruence.
Qed.

Lemma group_of_is_Some key records :
  is_Some (group_of key records)
  <-> exists sale, In sale records /\ product sale = VString key.
Proof.
  unfold group_of. split.
  - destruct (List.filter (has_product key) records) as [|sale sales] eqn:Hfilter;
      intros [stats Hstats]; [discriminate|].
    exists sale.
    assert (Hin : In sale (List.filter (has_product key) records))
      by (rewrite Hfilter; now left).
    apply filter_In in Hin as [Hin Hkey]. split; [exact Hin|].
    now apply has_product_spec.
  - intros (sale & Hin & Hkey).
    assert (Hfiltered : In sale (List.filter (has_product key) records))
      by (apply filter_In; split; [exact Hin | now apply has_product_spec]).
    destruct (List.filter (has_product key) records); [destruct Hfiltered|eauto].
Qed.

Lemma forallb_filter {A} (p q : A -> bool) (l : list A) :
  forallb p l = true -> forallb p (List.filter q l) = true.
Proof.
  rewrite !forallb_forall. intros H x Hx. apply H. now apply filter_In in Hx.
Qed.

(** X1: the report on product names that an object does not inherit: its keys
    are exactly the product strings of the records, none of them altered, and
    each group holds the sums of the quantities and of the amounts of the
    records with that product. *)
Theorem computeProductReport_groups_by_product
    (proto : ObjectPrototype) (records : list Sale) :
  forallb ordinary_sale records = true ->
  forallb numeric records = true ->
  unpolluted proto = true ->
  let report := (computeProductReport proto records).1 in
  (forall key, is_Some (report !! key)
     <-> exists sale, In sale records /\ product sale = VString key) /\
  (forall key stats, report !! key = Some stats ->
     Product.totalQuantity stats
       = VNumber (sum_of (map (fun sale => ToNumber (quantity sale))
                            (List.filter (has_product key) records))) /\
     Product.totalAmount stats
       = VNumber (sum_of (map (fun sale => ToNumber (amount sale))
                            (List.filter (has_product key) records)))).
Proof.
  intros Hord Hnum Hproto report.
  destruct (computeProductReport_ordinary proto records Hord Hproto) as [_ Hlookup].
  split.
  - intros key. unfold report. rewrite Hlookup. apply group_of_is_Some.
  - intros key stats Hstats. unfold report in Hstats. rewrite Hlookup in Hstats.
    apply group_of_Some in Hstats as ->.
    destruct (fold_add_sale_totals (List.filter (has_product key) records) empty_stats)
      as [-> ->].
    cbn [empty_stats Product.totalQuantity Product.totalAmount].
    split; apply reduce_numeric_field, forallb_filter.
    + now apply numeric_quantities.
    + now apply numeric_amounts.
Qed.

End InheritedNames.

(** The report over the two fixture records. *)
Lemma computeProductReport_groups_by_product_witness :
  let report := (computeProductReport (rt := sample_runtime) pristine initial_salesData).1 in
  forallb ordinary_sale initial_salesData = true /\
  forallb numeric initial_salesData = true /\
  unpolluted pristine = true /\
  (is_Some (report !! "Розы")
     <-> exists sale, In sale initial_salesData /\ product sale = VString "Розы").
Proof.
  intros report. split; [reflexivity|]. split; [reflexivity|]. split; [reflexivity|].
  exact (proj1 (computeProductReport_groups_by_product (rt := sample_runtime)
                  pristine initial_salesData eq_refl eq_refl eq_refl) "Розы").
Defined.

(** ** The report and [Object.prototype] *)

Section Prototype.
Context {rt : JsRuntime}.



(** Once [Object.prototype.totalQuantity] holds a string, a product named
    [totalQuantity] disappears from the report too. *)
Lemma report_after_pollution :
  let polluted := {| proto_totalQuantity := VString "undefined12";
                     proto_totalAmount := VNumber PrimFloat.nan |} in
  let sale := {| id := 3; product := VString "totalQuantity"; quantity := VNumber 2;
                 amount := VNumber 300; date := "2024-02-01" |} in
  (computeProductReport polluted [sale]).1 = ∅.
Proof. reflexivity. Qed.

Lemma ToNumber_of_number (rt' : JsRuntime) v :
  is_number v = true -> ToNumber (rt := rt) v = ToNumber (rt := rt') v.
Proof. destruct v; simpl; congruence. Qed.

End Prototype.

(** On numeric records the statistics do not depend on the runtime's
    conversions between numbers and strings. *)
Lemma computeSalesStats_any_runtime (rt1 rt2 : JsRuntime) records :
  forallb numeric records = true ->
  computeSalesStats (rt := rt1) records = computeSalesStats (rt := rt2) records.
Proof.
  intros Hnum.
  assert (Hmap : forall field : Sale -> value,
    forallb (fun sale => is_number (field sale)) records = true ->
    map (fun sale => ToNumber (rt := rt1) (field sale)) records
    = map (fun sale => ToNumber (rt := rt2) (field sale)) records).
  { intros field Hfield. apply map_ext_in. intros sale Hin.
    apply ToNumber_of_number.
    rewrite forallb_forall in Hfield. now apply Hfield. }
  pose proof (numeric_amounts records Hnum) as Hamounts.
  pose proof (numeric_quantities records Hnum) as Hquantities.
  unfold computeSalesStats. cbv zeta.
  rewrite (reduce_numeric_field (rt := rt1) amount),
          (reduce_numeric_field (rt := rt2) amount) by exact Hamounts.
  rewrite (reduce_numeric_field (rt := rt1) quantity),
          (reduce_numeric_field (rt := rt2) quantity) by exact Hquantities.
  rewrite (Hmap amount Hamounts), (Hmap quantity Hquantities).
  reflexivity.
Qed.

(** ** Ids as numbers *)

Lemma shl_inj n p q : shl n p = shl n q -> p = q.
Proof.
  induction n as [|n IH]; [trivial|].
  rewrite !shl_S. intros [= H]. now apply IH.
Qed.

Lemma SF_of_Z_inj a b :
  0 <= a -> 0 <= b -> SF_of_Z a = SF_of_Z b -> a = b.
Proof.
  intros Ha Hb.
  destruct a as [|p|p], b as [|q|q]; try lia; try discriminate; try reflexivity.
  cbn [SF_of_Z]. intros [= Hm He].
  assert (Hd : Z.pos (digits2_pos p) = Z.pos (digits2_pos q)) by lia.
  rewrite Hd in Hm. apply shl_inj in Hm. now subst.
Qed.

(** Distinct integers below 2^53 are distinct JavaScript numbers. *)
Lemma number_of_Z_inj a b :
  0 <= a < 2 ^ 53 -> 0 <= b < 2 ^ 53 -> number_of_Z a = number_of_Z b -> a = b.
Proof.
  intros Ha Hb H. apply (f_equal Prim2SF) in H.
  rewrite !Prim2SF_number_of_Z in H by assumption.
  apply SF_of_Z_inj in H; lia.
Qed.

(** X5: [salesData.length + 1], computed on numbers, is the integer
    [length + 1]: the id of a record is modelled by that integer. *)
Theorem length_plus_one_is_exact (n : nat) :
  Z.of_nat n + 1 < 2 ^ 53 ->
  (number_of_nat n + 1)%float = number_of_Z (Z.of_nat n + 1).
Proof.
  intros Hn. change 1%float with (number_of_Z 1).
  apply number_of_Z_add; lia.
Qed.

Lemma length_plus_one_is_exact_witness :
  (number_of_nat 2 + 1)%float = number_of_Z 3.
Proof. apply (length_plus_one_is_exact 2). simpl. lia. Defined.




(** ** Inherited names never reach the report *)

Section InheritedKeys.
Context {rt : JsRuntime}.

Lemma get_inherited_name (h : heap) key :
  h.1 !! key = None -> ordinary key = false -> is_falsy (get h key) = false.
Proof.
  intros Hnone Hord. unfold get. rewrite Hnone.
  unfold ordinary in Hord. apply negb_false_iff, orb_true_iff in Hord as [H|H].
  - now rewrite H.
  - destruct (String.eqb key "__proto__"); [reflexivity|]. now rewrite H.
Qed.

(** The two [+=] leave alone a key that is not an own property. *)
Lemma add_totalQuantity_None (h : heap) k q key :
  h.1 !! key = None -> (add_totalQuantity k q h).1 !! key = None.
Proof.
  intros Hnone. unfold add_totalQuantity, get.
  destruct (h.1 !! k) as [stats|] eqn:Hk; cbn [fst].
  - rewrite lookup_insert_ne; [exact Hnone | congruence].
  - destruct (String.eqb k "__proto__"); [exact Hnone|].
    destruct (is_Object_prototype_function k); [exact Hnone|].
    destruct (String.eqb k "totalQuantity"); [exact Hnone|].
    destruct (String.eqb k "totalAmount"); exact Hnone.
Qed.

Lemma add_totalAmount_None (h : heap) k a key :
  h.1 !! key = None -> (add_totalAmount k a h).1 !! key = None.
Proof.
  intros Hnone. unfold add_totalAmount, get.
  destruct (h.1 !! k) as [stats|] eqn:Hk; cbn [fst].
  - rewrite lookup_insert_ne; [exact Hnone | congruence].
  - destruct (String.eqb k "__proto__"); [exact Hnone|].
    destruct (is_Object_prototype_function k); [exact Hnone|].
    destruct (String.eqb k "totalQuantity"); [exact Hnone|].
    destruct (String.eqb k "totalAmount"); exact Hnone.
Qed.

(** The callback of [reduce] creates an entry only under the key of the sale
    it handles, and only when that key read as falsy. *)
Lemma productStats_step_keys (h : heap) sale key :
  (productStats_step h sale).1 !! key <> None ->
  h.1 !! key <> None \/
  (key = ToPropertyKey (product sale) /\ is_falsy (get h key) = true).
Proof.
  unfold productStats_step.
  set (k := ToPropertyKey (product sale)).
  intros Hlookup.
  destruct (h.1 !! key) as [stats|] eqn:Hnone; [left; congruence|]. right.
  destruct (is_falsy (get h k)) eqn:Hfalsy.
  - destruct (decide (key = k)) as [->|Hne]; [now split|].
    exfalso. apply Hlookup.
    apply add_totalAmount_None, add_totalQuantity_None. cbn [fst].
    now rewrite lookup_insert_ne by congruence.
  - exfalso. apply Hlookup.
    now apply add_totalAmount_None, add_totalQuantity_None.
Qed.

(** X7: a product named like a property that objects inherit never becomes a key
    of the report, whatever the records and the state of [Object.prototype]. *)
Theorem inherited_names_are_never_reported
    (proto : ObjectPrototype) (records : list Sale) (key : string) :
  ordinary key = false ->
  (computeProductReport proto records).1 !! key = None.
Proof.
  intros Hord.
  induction records as [|sale records IH] using rev_ind; [apply lookup_empty|].
  rewrite computeProductReport_snoc.
  destruct ((productStats_step (computeProductReport proto records) sale).1 !! key)
    as [stats|] eqn:Hlookup; [exfalso|reflexivity].
  destruct (productStats_step_keys (computeProductReport proto records) sale key)
    as [Hown | [_ Hfalsy]].
  - now rewrite Hlookup.
  - now apply Hown.
  - rewrite (get_inherited_name _ key IH Hord) in Hfalsy. discriminate Hfalsy.
Qed.

End InheritedKeys.

Lemma inherited_names_are_never_reported_witness :
  (computeProductReport (rt := sample_runtime) pristine
     (post_analytics_sales "2024-02-01T08:00:00.000Z" constructor_body
        initial_salesData).1).1 !! "toString" = None.
Proof.
  exact (inherited_names_are_never_reported (rt := sample_runtime) pristine _
           "toString" eq_refl).
Defined.

(** ** Appends compose *)

Section Appends.
Context {rt : JsRuntime}.

(** X8: the statistics after an append follow from the statistics before it:
    one more sale, the amount and the quantity of the request added (with
    [+], whatever their types) to the totals, and the new record last in
    [salesData]. *)
Theorem statistics_follow_an_append (now : string) (body : SaleBody)
    (store : list Sale) :
  let before := computeSalesStats store in
  let result := post_analytics_sales now body store in
  let after := computeSalesStats result.1 in
  salesCount after = S (salesCount before) /\
  totalSales after = js_add (totalSales before) (body_amount body) /\
  totalQuantity after = js_add (totalQuantity before) (body_quantity body) /\
  salesData after = (salesData before ++ [payload result.2])%list.
Proof.
  intros before result after. unfold after, before, result.
  cbn [post_analytics_sales fst snd payload computeSalesStats salesCount
       totalSales totalQuantity salesData].
  rewrite length_app, !fold_left_app. cbn [length fold_left amount quantity].
  repeat split. lia.
Qed.

End Appends.

Lemma imap_snoc {A B} (f : nat -> A -> B) (l : list A) (x : A) :
  imap f (l ++ [x]) = (imap f l ++ [f (length l) x])%list.
Proof.
  rewrite imap_app. cbn [imap]. do 2 f_equal.
  unfold compose. f_equal. lia.
Qed.

Lemma post_all_imap (requests : list (string * SaleBody)) (store : list Sale) :
  post_all requests store
  = (store ++ imap (fun i request => appended_sale (length store + i) request)
                requests)%list.
Proof.
  induction requests as [|[now body] requests IH] using rev_ind.
  - cbn. now rewrite app_nil_r.
  - rewrite post_all_snoc, IH, imap_snoc, app_assoc.
    cbn [fst post_analytics_sales]. do 2 f_equal.
    unfold appended_sale. cbn [fst snd]. f_equal.
    rewrite length_app, length_imap. lia.
Qed.

(** X9: a sequence of [POST /analytics/sales] requests leaves the records
    that were in the store where they were, unchanged, and puts after them one
    record per request, in request order: the request's fields, the day of
    its clock reading, and the ids [length + 1], [length + 2], ... *)
Theorem post_all_appends_in_order (requests : list (string * SaleBody))
    (store : list Sale) :
  post_all requests store
    = (store ++ imap (fun i request => appended_sale (length store + i) request)
                  requests)%list /\
  (forall i sale, store !! i = Some sale -> post_all requests store !! i = Some sale) /\
  length (post_all requests store) = (length store + length requests)%nat.
Proof.
  split; [apply post_all_imap|]. split.
  - intros i sale Hlookup. rewrite post_all_imap. now apply lookup_app_l_Some.
  - apply post_all_length.
Qed.

Lemma post_all_notifications_snoc requests now body store :
  post_all_notifications (requests ++ [(now, body)]) store
  = (Notification.post_notifications now body (post_all_notifications requests store)).1.
Proof. unfold post_all_notifications. now rewrite fold_left_app. Qed.

(** X10: [GET /notifications] after a sequence of [POST /notifications]
    requests answers 200 with the notifications that were there, unchanged and
    in their order, followed by one notification per request in request order:
    the request's message and type, its clock reading as timestamp, and the
    ids [length + 1], [length + 2], ... *)
Theorem notifications_are_listed_in_order
    (requests : list (string * Notification.NotificationBody))
    (store : list Notification.Notification) :
  let response :=
    Notification.get_notifications (post_all_notifications requests store) in
  status response = 200%nat /\
  payload response
    = (store ++ imap (fun i request => appended_notification (length store + i) request)
                  requests)%list /\
  (forall i notification,
      store !! i = Some notification -> payload response !! i = Some notification).
Proof.
  intros response.
  assert (Heq : post_all_notifications requests store
    = (store ++ imap (fun i request => appended_notification (length store + i) request)
                  requests)%list).
  { induction requests as [|[now body] requests IH] using rev_ind.
    - cbn. now rewrite app_nil_r.
    - rewrite post_all_notifications_snoc, IH, imap_snoc, app_assoc.
      cbn [fst Notification.post_notifications]. do 2 f_equal.
      unfold appended_notification. cbn [fst snd]. f_equal.
      rewrite length_app, length_imap. lia. }
  split; [reflexivity|]. split; [exact Heq|].
  intros i notification Hlookup. unfold response.
  cbn [payload Notification.get_notifications]. rewrite Heq.
  now apply lookup_app_l_Some.
Qed.

(** X11: the states that [salesData] can reach are the results of sequences of
    [POST /analytics/sales] requests on the fixtures: the two fixtures,
    followed by one record per request with the ids 3, 4, ... *)
Theorem reachable_stores_are_sequences_of_posts (store : list Sale) :
  Analytics.reachable store
  <-> exists requests,
        store = post_all requests initial_salesData /\
        store = (initial_salesData
                 ++ imap (fun i request => appended_sale (2 + i) request) requests)%list.
Proof.
  split.
  - intros Hreach.
    assert (Hposts : exists requests, store = post_all requests initial_salesData).
    { induction Hreach as [|now body store _ [requests ->]].
      - now exists [].
      - exists (requests ++ [(now, body)])%list. now rewrite post_all_snoc. }
    destruct Hposts as [requests ->]. exists requests.
    split; [reflexivity | apply post_all_imap].
  - intros (requests & -> & _).
    induction requests as [|[now body] requests IH] using rev_ind.
    + apply Analytics.reachable_start.
    + rewrite post_all_snoc. now apply Analytics.reachable_post.
Qed.

(** ** Amounts that are not numbers *)

Lemma nan_add_l x : (PrimFloat.nan + x)%float = PrimFloat.nan.
Proof.
  apply Prim2SF_inj. rewrite FloatAxioms.add_spec.
  change (Prim2SF PrimFloat.nan) with S754_nan. reflexivity.
Qed.

Lemma nan_add_r x : (x + PrimFloat.nan)%float = PrimFloat.nan.
Proof.
  apply Prim2SF_inj. rewrite FloatAxioms.add_spec.
  change (Prim2SF PrimFloat.nan) with S754_nan.
  now destruct (Prim2SF x).
Qed.

Lemma nan_div_l x : (PrimFloat.nan / x)%float = PrimFloat.nan.
Proof.
  apply Prim2SF_inj. rewrite FloatAxioms.div_spec.
  change (Prim2SF PrimFloat.nan) with S754_nan. reflexivity.
Qed.

Lemma fold_add_nan xs : fold_left PrimFloat.add xs PrimFloat.nan = PrimFloat.nan.
Proof. induction xs as [|x xs IH]; [reflexivity|]. simpl. now rewrite nan_add_l. Qed.

Lemma forallb_of_map {A B} (p : B -> bool) (f : A -> B) (l : list A) :
  forallb p (map f l) = forallb (fun x => p (f x)) l.
Proof. induction l as [|x l IH]; [reflexivity|]. simpl. now rewrite IH. Qed.

Lemma existsb_of_map {A B} (p : B -> bool) (f : A -> B) (l : list A) :
  existsb p (map f l) = existsb (fun x => p (f x)) l.
Proof. induction l as [|x l IH]; [reflexivity|]. simpl. now rewrite IH. Qed.

Section OtherAmounts.
Context {rt : JsRuntime}.

(** Adding numbers and [undefined]s to a number: a number, NaN as soon as
    one of them is [undefined]. *)
Lemma fold_js_add_missing (vs : list value) (sum : float) :
  forallb is_number_or_undefined vs = true ->
  fold_left js_add vs (VNumber sum)
  = VNumber (if forallb is_number vs
             then fold_left PrimFloat.add (map ToNumber vs) sum
             else PrimFloat.nan).
Proof.
  revert sum. induction vs as [|v vs IH]; intros sum Hvs; [reflexivity|].
  cbn [forallb] in Hvs. apply andb_prop in Hvs as [Hv Hvs].
  destruct v; try discriminate Hv; cbn [fold_left forallb is_number andb map ToNumber].
  - change (js_add (VNumber sum) VUndefined) with (VNumber (sum + PrimFloat.nan)).
    rewrite nan_add_r, (IH _ Hvs).
    destruct (forallb is_number vs); [now rewrite fold_add_nan|reflexivity].
  - change (js_add (VNumber sum) (VNumber x)) with (VNumber (sum + x)).
    now rewrite (IH _ Hvs).
Qed.

(** X12: when every amount in the store is a number or is missing, and at
    least one is missing, [totalSales] is NaN and so is [averageSale]: one
    sale posted without its amount spoils both figures for good, since no
    record is ever removed. *)
Theorem missing_amount_spoils_the_statistics (records : list Sale) :
  forallb (fun sale => is_number_or_undefined (amount sale)) records = true ->
  existsb (fun sale => negb (is_number (amount sale))) records = true ->
  totalSales (computeSalesStats records) = VNumber PrimFloat.nan /\
  averageSale (computeSalesStats records) = VNumber PrimFloat.nan.
Proof.
  intros Hall Hsome.
  assert (Htotal : totalSales (computeSalesStats records) = VNumber PrimFloat.nan).
  { cbn [totalSales computeSalesStats]. rewrite (fold_js_add_field amount).
    rewrite fold_js_add_missing by (now rewrite forallb_of_map).
    rewrite forallb_of_map.
    destruct (forallb (fun sale => is_number (amount sale)) records) eqn:Hnum;
      [|reflexivity].
    exfalso. apply existsb_exists in Hsome as (sale & Hin & Hsale).
    rewrite forallb_forall in Hnum. rewrite (Hnum sale Hin) in Hsale.
    discriminate Hsale. }
  split; [exact Htotal|].
  change (averageSale (computeSalesStats records))
    with (js_div (totalSales (computeSalesStats records))
                 (VNumber (number_of_nat (length records)))).
  rewrite Htotal. unfold js_div. cbn [ToNumber]. now rewrite nan_div_l.
Qed.

Lemma js_add_string_l s v : is_string (js_add (VString s) v) = true.
Proof. reflexivity. Qed.

Lemma js_add_string_r v s : is_string (js_add v (VString s)) = true.
Proof. now destruct v as [| |[]| |]. Qed.

Lemma fold_js_add_string (vs : list value) (sum : value) :
  is_string sum = true \/ existsb is_string vs = true ->
  is_string (fold_left js_add vs sum) = true.
Proof.
  revert sum. induction vs as [|v vs IH]; intros sum H.
  - destruct H as [H|H]; [exact H | discriminate H].
  - cbn [fold_left]. apply IH.
    destruct H as [H|H].
    + left. destruct sum; try discriminate H. apply js_add_string_l.
    + cbn [existsb] in H. apply orb_true_iff in H as [H|H]; [left|now right].
      destruct v; try discriminate H. apply js_add_string_r.
Qed.

(** X13: as soon as one amount in the store is a string, [totalSales] is a
    string (the concatenation that [+] makes), whatever the other records
    hold: the total is not a number any more. *)
Theorem string_amount_makes_totalSales_a_string (records : list Sale) :
  existsb (fun sale => is_string (amount sale)) records = true ->
  is_string (totalSales (computeSalesStats records)) = true /\
  is_number (totalSales (computeSalesStats records)) = false.
Proof.
  intros Hsome.
  assert (Hstring : is_string (totalSales (computeSalesStats records)) = true).
  { cbn [totalSales computeSalesStats]. rewrite (fold_js_add_field amount).
    apply fold_js_add_string. right. now rewrite existsb_of_map. }
  split; [exact Hstring|].
  now destruct (totalSales (computeSalesStats records)).
Qed.

End OtherAmounts.

(** ** The divisor of [averageSale] in the running service *)

Lemma number_of_nat_is_not_zero (n : nat) :
  (0 < n)%nat -> Z.of_nat n < 2 ^ 53 ->
  PrimFloat.is_zero (number_of_nat n) = false.
Proof.
  intros Hpos Hbound. unfold PrimFloat.is_zero, number_of_nat.
  rewrite FloatAxioms.eqb_spec, Prim2SF_number_of_Z by lia.
  destruct (Z.of_nat n) as [|p|p] eqn:Hn; [lia|reflexivity|lia].
Qed.

Lemma reachable_keeps_the_fixtures store :
  Analytics.reachable store -> (2 <= length store)%nat.
Proof.
  induction 1 as [|now body store _ IH]; [reflexivity|].
  cbn [fst post_analytics_sales]. rewrite length_app. lia.
Qed.

(** X14: in every state that [salesData] can reach the store holds at least
    the two fixtures, so [salesCount] is at least 2 and the divisor
    [salesData.length] of [averageSale] is not zero: the running service never
    performs the division by zero. *)
Theorem running_service_never_divides_by_zero `{rt : JsRuntime} (store : list Sale) :
  Analytics.reachable store -> Z.of_nat (length store) < 2 ^ 53 ->
  (2 <= salesCount (computeSalesStats store))%nat /\
  PrimFloat.is_zero (number_of_nat (salesCount (computeSalesStats store))) = false.
Proof.
  intros Hreach Hbound. pose proof (reachable_keeps_the_fixtures store Hreach) as Hlen.
  cbn [salesCount computeSalesStats]. split; [exact Hlen|].
  apply number_of_nat_is_not_zero; [lia | exact Hbound].
Qed.

Lemma running_service_never_divides_by_zero_witness :
  PrimFloat.is_zero
    (number_of_nat (salesCount (computeSalesStats (rt := sample_runtime)
       (post_all [("2024-02-01T08:00:00.000Z", roses_body)] initial_salesData))))
  = false.
Proof.
  apply (running_service_never_divides_by_zero (rt := sample_runtime)).
  - apply Analytics.reachable_post, Analytics.reachable_start.
  - simpl. lia.
Defined.

(** ** The keys of the report *)

Section ReportKeys.
Context {rt : JsRuntime}.

(** The callback of [reduce] on a sale whose key is not an inherited name. *)
Lemma productStats_step_by_key (h : heap) sale :
  ordinary (key_of sale) = true -> unpolluted h.2 = true ->
  productStats_step h sale
  = (<[key_of sale := add_sale (default empty_stats (h.1 !! key_of sale)) sale]> h.1, h.2).
Proof.
  intros Hord Hproto. unfold productStats_step. fold (key_of sale).
  set (key := key_of sale) in *. cbv zeta.
  destruct (h.1 !! key) as [stats|] eqn:Hlookup.
  - rewrite (get_own h key stats Hlookup). cbn [is_falsy].
    unfold add_totalQuantity. rewrite (get_own h key stats Hlookup).
    unfold add_totalAmount. rewrite (get_own _ key _ (lookup_insert_eq _ _ _)).
    cbn [fst snd Product.totalQuantity Product.totalAmount].
    now rewrite insert_insert_eq.
  - rewrite (get_absent_is_falsy h key Hlookup Hord Hproto).
    unfold add_totalQuantity. rewrite (get_own _ key _ (lookup_insert_eq _ _ _)).
    unfold add_totalAmount. rewrite (get_own _ key _ (lookup_insert_eq _ _ _)).
    cbn [fst snd Product.totalQuantity Product.totalAmount].
    now rewrite !insert_insert_eq.
Qed.

Lemma group_by_key_snoc key records sale :
  group_by_key key (records ++ [sale])
  = if has_key key sale
    then Some (add_sale (default empty_stats (group_by_key key records)) sale)
    else group_by_key key records.
Proof.
  unfold group_by_key. rewrite List.filter_app. cbn [List.filter].
  destruct (has_key key sale).
  - destruct (List.filter (has_key key) records) as [|s l]; [reflexivity|].
    change ((s :: l) ++ [sale])%list with (s :: (l ++ [sale]))%list.
    cbn [default]. f_equal.
    change (s :: (l ++ [sale]))%list with ((s :: l) ++ [sale])%list.
    now rewrite fold_left_app.
  - now rewrite app_nil_r.
Qed.

Lemma computeProductReport_by_key proto records :
  forallb ordinary_key records = true -> unpolluted proto = true ->
  (computeProductReport proto records).2 = proto /\
  forall key, (computeProductReport proto records).1 !! key = group_by_key key records.
Proof.
  intros Hord Hproto.
  induction records as [|sale records IH] using rev_ind.
  - split; [reflexivity|]. intros key. apply lookup_empty.
  - rewrite forallb_app in Hord. apply andb_prop in Hord as [Hrecords Hsale].
    cbn [forallb] in Hsale. rewrite andb_true_r in Hsale.
    destruct (IH Hrecords) as [IHproto IHlookup].
    rewrite computeProductReport_snoc.
    rewrite (productStats_step_by_key _ sale Hsale) by (now rewrite IHproto).
    split; [exact IHproto|]. intros key. rewrite group_by_key_snoc. cbn [fst].
    unfold has_key. destruct (String.eqb_spec (key_of sale) key) as [<-|Hne].
    + now rewrite lookup_insert_eq, IHlookup.
    + rewrite lookup_insert_ne by exact Hne. apply IHlookup.
Qed.

(** X15: the report files every sale under its product converted to a
    property key, whatever the product is: over sales whose keys are not
    inherited names, each key of the report holds the totals of the sales
    with that key.  A sale posted without a product is therefore reported
    under the key "undefined", in one group with the sales of a product that
    is named "undefined". *)
Theorem report_groups_by_property_key
    (proto : ObjectPrototype) (records : list Sale) :
  forallb ordinary_key records = true -> unpolluted proto = true ->
  let report := (computeProductReport proto records).1 in
  (forall key, report !! key = group_by_key key records) /\
  (forall sale, In sale records ->
     product sale = VUndefined \/ product sale = VString "undefined" ->
     report !! "undefined" = group_by_key "undefined" records /\
     is_Some (report !! "undefined")).
Proof.
  intros Hord Hproto report.
  destruct (computeProductReport_by_key proto records Hord Hproto) as [_ Hlookup].
  split; [exact Hlookup|].
  intros sale Hin Hproduct. split; [apply Hlookup|].
  unfold report. rewrite Hlookup. unfold group_by_key.
  assert (Hfiltered : In sale (List.filter (has_key "undefined") records)).
  { apply filter_In. split; [exact Hin|]. unfold has_key, key_of.
    destruct Hproduct as [-> | ->]; reflexivity. }
  destruct (List.filter (has_key "undefined") records); [destruct Hfiltered|eauto].
Qed.

Lemma get_ThePrototype (h : heap) key :
  get h key = ThePrototype -> key = "__proto__".
Proof.
  unfold get. destruct (h.1 !! key); [discriminate|].
  destruct (String.eqb_spec key "__proto__") as [->|_]; [reflexivity|].
  destruct (is_Object_prototype_function key); [discriminate|].
  destruct (String.eqb key "totalQuantity"); [discriminate|].
  destruct (String.eqb key "totalAmount"); discriminate.
Qed.

(** Only a sale filed under [__proto__] makes the callback write to
    [Object.prototype]. *)
Lemma productStats_step_prototype (h : heap) sale :
  key_of sale <> "__proto__" -> (productStats_step h sale).2 = h.2.
Proof.
  intros Hkey. unfold productStats_step. fold (key_of sale).
  set (key := key_of sale) in *. cbv zeta.
  assert (Hq : forall (h' : heap) q, (add_totalQuantity key q h').2 = h'.2).
  { intros h' q. unfold add_totalQuantity.
    destruct (get h' key) eqn:Hget; try reflexivity.
    now apply get_ThePrototype in Hget. }
  assert (Ha : forall (h' : heap) a, (add_totalAmount key a h').2 = h'.2).
  { intros h' a. unfold add_totalAmount.
    destruct (get h' key) eqn:Hget; try reflexivity.
    now apply get_ThePrototype in Hget. }
  rewrite Ha, Hq. now destruct (is_falsy (get h key)).
Qed.

(** X16: [GET /analytics/products] writes to [Object.prototype] only for a
    sale filed under [__proto__]: on every other store it leaves
    [Object.prototype] as it found it, in whatever state, and a second request
    gets the same answer as the first. *)
Theorem report_is_a_pure_read_without_proto
    (proto : ObjectPrototype) (records : list Sale) :
  forallb (fun sale => negb (String.eqb (key_of sale) "__proto__")) records = true ->
  let first_answer := get_analytics_products proto records in
  first_answer.1 = proto /\
  get_analytics_products first_answer.1 records = first_answer.
Proof.
  intros Hkeys first_answer.
  assert (Hproto : (computeProductReport proto records).2 = proto).
  { induction records as [|sale records IH] using rev_ind; [reflexivity|].
    rewrite forallb_app in Hkeys. apply andb_prop in Hkeys as [Hrecords Hsale].
    cbn [forallb] in Hsale. rewrite andb_true_r in Hsale.
    rewrite computeProductReport_snoc, productStats_step_prototype.
    - now apply IH.
    - intros Heq. rewrite Heq in Hsale. discriminate Hsale. }
  unfold first_answer, get_analytics_products. cbn [fst].
  split; [exact Hproto | now rewrite !Hproto].
Qed.

(** X17: the report invents no product: every key of the report is the
    property key of a sale in the store, whatever the records and the state
    of [Object.prototype]. *)
Theorem report_keys_come_from_the_records
    (proto : ObjectPrototype) (records : list Sale) (key : string) :
  is_Some ((computeProductReport proto records).1 !! key) ->
  exists sale, In sale records /\ key_of sale = key.
Proof.
  induction records as [|sale records IH] using rev_ind.
  - intros [stats Hstats]. cbn in Hstats. rewrite lookup_empty in Hstats.
    discriminate Hstats.
  - rewrite computeProductReport_snoc. intros [stats Hstats].
    destruct (productStats_step_keys (computeProductReport proto records) sale key)
      as [Hown | [Hkey _]].
    + now rewrite Hstats.
    + destruct IH as (sale' & Hin & Hsale').
      { destruct ((computeProductReport proto records).1 !! key); [eauto|now destruct Hown]. }
      exists sale'. split; [apply in_or_app; now left | exact Hsale'].
    + exists sale. split; [apply in_or_app; right; now left | now symmetry].
Qed.

End ReportKeys.

Lemma report_groups_by_property_key_witness :
  let no_product := {| id := 3; product := VUndefined; quantity := VNumber 2;
                       amount := VNumber 300; date := "2024-02-01" |} in
  let records := (initial_salesData ++ [no_product])%list in
  forallb (ordinary_key (rt := sample_runtime)) records = true /\
  (computeProductReport (rt := sample_runtime) pristine records).1 !! "undefined"
  = Some {| Product.totalQuantity := VNumber 2; Product.totalAmount := VNumber 300 |}.
Proof.
  intros no_product records. split; [reflexivity|].
  exact (proj1 (report_groups_by_property_key (rt := sample_runtime) pristine records
                  eq_refl eq_refl) "undefined").
Defined.

Lemma report_is_a_pure_read_without_proto_witness :
  (get_analytics_products (rt := sample_runtime) pristine initial_salesData).1 = pristine.
Proof.
  exact (proj1 (report_is_a_pure_read_without_proto (rt := sample_runtime) pristine
                  initial_salesData eq_refl)).
Defined.

Lemma report_keys_come_from_the_records_witness :
  exists sale, In sale initial_salesData /\ key_of (rt := sample_runtime) sale = "Розы".
Proof.
  apply (report_keys_come_from_the_records (rt := sample_runtime) pristine
           initial_salesData "Розы").
  eexists. vm_compute. reflexivity.
Defined.

Lemma missing_amount_spoils_the_statistics_witness :
  let no_amount := {| id := 3; product := VString "Розы"; quantity := VNumber 2;
                      amount := VUndefined; date := "2024-02-01" |} in
  totalSales (computeSalesStats (rt := sample_runtime)
                (initial_salesData ++ [no_amount])%list)
  = VNumber PrimFloat.nan.
Proof.
  intros no_amount.
  exact (proj1 (missing_amount_spoils_the_statistics (rt := sample_runtime)
                  (initial_salesData ++ [no_amount])%list eq_refl eq_refl)).
Defined.

Lemma string_amount_makes_totalSales_a_string_witness :
  let as_text := {| id := 3; product := VString "Розы"; quantity := VNumber 2;
                    amount := VString "300"; date := "2024-02-01" |} in
  is_string (totalSales (computeSalesStats (rt := sample_runtime)
                           (initial_salesData ++ [as_text])%list)) = true.
Proof.
  intros as_text.
  exact (proj1 (string_amount_makes_totalSales_a_string (rt := sample_runtime)
                  (initial_salesData ++ [as_text])%list eq_refl)).
Defined.
